(** * magicgui backend protocols: a model of [magicgui/widgets/_protocols.py]

    The module declares the interfaces a GUI backend implements: a family of
    [typing.Protocol] classes (runtime-checkable, with abstract [_mgui_]
    methods), the [SupportsOrientation] mixin with its validating
    [orientation] property, and the abstract base class
    [BaseApplicationBackend].

    The development has these parts:
    - Python values and exceptions;
    - the class model: classes with bases and a namespace, the C3 method
      resolution order, attribute lookup, [abc]'s abstract-method set and
      [typing]'s runtime protocol check (as implemented by CPython 3.11's
      [typing] and [abc] modules);
    - the class declarations of [_protocols.py];
    - calls: argument binding, the state-and-exception monad in which
      method bodies run, the function bodies of [_protocols.py], method
      calls and attribute access;
    - the container operations the specification describes;
    - the properties of the class model and of the module. *)

From Stdlib Require Import List String ZArith Bool Lia.
Import ListNotations.
Open Scope string_scope.
Open Scope list_scope.
Set Warnings "-register-all".

(** ** Values and exceptions *)

Inductive value : Type :=
| VNone
| VBool (b : bool)
| VInt (z : Z)
| VStr (s : string)
| VFunc (name : string)
| VObject (name : string)
| VTuple (items : list value)
| VList (items : list value)
| VSet (items : list value).

(** [hash(v)] succeeds on every built-in value except lists, sets and
    tuples that contain one. *)
Fixpoint hashable (v : value) : bool :=
  match v with
  | VList _ => false
  | VSet _ => false
  | VTuple items => forallb hashable items
  | _ => true
  end.

Definition is_set (v : value) : bool :=
  match v with VSet _ => true | _ => false end.

Definition is_none (v : value) : bool :=
  match v with VNone => true | _ => false end.

Inductive exception : Type :=
| NotImplementedError
| ValueError (msg : string)
| TypeError (msg : string)
| AttributeError (name : string)
| IndexError (msg : string)
| RuntimeError (msg : string)
| RecursionError.

Inductive result (A : Type) : Type :=
| Ret (a : A)
| Raise (e : exception).
Arguments Ret {A} a.
Arguments Raise {A} e.

(** ** Classes *)

(** What a name is bound to in a class namespace.  A function defined in
    the module is referred to by its qualified name, its parameters and
    body live in the function table below; [Native] is a callable supplied
    by a backend.  [Property] is a property built from plain functions,
    [AbstractProperty] one built from a function that is an
    [abstractmethod].  Binding a name to [None] to disable an inherited
    method is not represented. *)
Inductive attr : Type :=
| Function (isabstractmethod : bool) (qualname : string)
| Native (name : string)
| Property (fget : string) (fset : option string)
| AbstractProperty (fget : string) (fset : option string)
| Data.

Inductive class : Type :=
  Class { cname : string;
          cbases : list class;
          runtime_checkable : bool;
          cbody : list (string * attr) }.

Definition option_eqb {A} (eqb : A -> A -> bool) (x y : option A) : bool :=
  match x, y with
  | Some a, Some b => eqb a b
  | None, None => true
  | _, _ => false
  end.

Definition attr_eqb (a b : attr) : bool :=
  match a, b with
  | Function x q, Function y r => Bool.eqb x y && String.eqb q r
  | Native n, Native m => String.eqb n m
  | Property g s, Property h t => String.eqb g h && option_eqb String.eqb s t
  | AbstractProperty g s, AbstractProperty h t =>
      String.eqb g h && option_eqb String.eqb s t
  | Data, Data => true
  | _, _ => false
  end.

Definition binding_eqb (x y : string * attr) : bool :=
  String.eqb (fst x) (fst y) && attr_eqb (snd x) (snd y).

Fixpoint list_eqb {A} (eqb : A -> A -> bool) (l1 l2 : list A) : bool :=
  match l1, l2 with
  | [], [] => true
  | x :: t1, y :: t2 => eqb x y && list_eqb eqb t1 t2
  | _, _ => false
  end.

(** Class identity.  Two classes are the same class when they agree on
    name, bases, decorator and namespace. *)
Fixpoint class_eqb (a b : class) : bool :=
  match a, b with
  | Class n1 bs1 r1 d1, Class n2 bs2 r2 d2 =>
      String.eqb n1 n2
      && (fix bases_eqb (l1 l2 : list class) : bool :=
            match l1, l2 with
            | [], [] => true
            | x :: t1, y :: t2 => class_eqb x y && bases_eqb t1 t2
            | _, _ => false
            end) bs1 bs2
      && Bool.eqb r1 r2
      && list_eqb binding_eqb d1 d2
  end.

(** ** Method resolution order (C3 linearization) *)

Section C3.
Context {A : Type} (eqb : A -> A -> bool).

Definition is_nil (s : list A) : bool :=
  match s with [] => true | _ => false end.

Definition in_tail (x : A) (s : list A) : bool :=
  match s with [] => false | _ :: t => existsb (eqb x) t end.

(** The first head that occurs in no tail. *)
Fixpoint find_head (seqs all : list (list A)) : option A :=
  match seqs with
  | [] => None
  | [] :: rest => find_head rest all
  | (x :: _) :: rest =>
      if existsb (in_tail x) all then find_head rest all else Some x
  end.

Definition drop_head (x : A) (s : list A) : list A :=
  match s with
  | y :: t => if eqb x y then t else s
  | [] => []
  end.

(** [merge] fails ([None]) when no consistent order exists; the fuel
    bounds the number of elements taken. *)
Fixpoint merge (fuel : nat) (seqs : list (list A)) : option (list A) :=
  match fuel with
  | 0 => None
  | S fuel' =>
      if forallb is_nil seqs then Some []
      else match find_head seqs seqs with
           | None => None
           | Some x => option_map (cons x) (merge fuel' (map (drop_head x) seqs))
           end
  end.
End C3.

Fixpoint sequence {A : Type} (l : list (option A)) : option (list A) :=
  match l with
  | [] => Some []
  | x :: t =>
      match x, sequence t with
      | Some a, Some r => Some (a :: r)
      | _, _ => None
      end
  end.

(** [C.__mro__]: the class itself, then the merge of the linearizations of
    its bases and the list of bases.  [None] when class creation fails with
    "Cannot create a consistent method resolution order". *)
Fixpoint mro (C : class) : option (list class) :=
  match C with
  | Class _ bs _ _ =>
      match sequence (map mro bs) with
      | Some ls =>
          option_map (cons C)
            (merge class_eqb (S (List.length (List.concat ls) + List.length bs))
               (ls ++ [bs])%list)
      | None => None
      end
  end.

Definition resolution (C : class) : list class :=
  match mro C with Some l => l | None => [] end.

(** The root classes of the standard library.  Their own attributes play
    no part in what follows and are left out. *)
Definition object : class := Class "object" [] false [].
Definition Generic : class := Class "Generic" [object] false [].
Definition Protocol : class := Class "Protocol" [Generic] false [].
Definition ABC : class := Class "ABC" [object] false [].

(** ** The classes of [_protocols.py] *)

(** [@abstractmethod def name(self, ...)] in the body of class [cls]. *)
Definition abstractmethod (cls name : string) : string * attr :=
  (name, Function true (cls ++ "." ++ name)%string).

Definition WidgetProtocol : class :=
  Class "WidgetProtocol" [Protocol] true
    [ abstractmethod "WidgetProtocol" "_mgui_show_widget";
      abstractmethod "WidgetProtocol" "_mgui_hide_widget";
      abstractmethod "WidgetProtocol" "_mgui_get_enabled";
      abstractmethod "WidgetProtocol" "_mgui_set_enabled";
      abstractmethod "WidgetProtocol" "_mgui_get_parent";
      abstractmethod "WidgetProtocol" "_mgui_set_parent";
      abstractmethod "WidgetProtocol" "_mgui_get_native_widget";
      abstractmethod "WidgetProtocol" "_mgui_bind_parent_change_callback";
      abstractmethod "WidgetProtocol" "_mgui_render" ].

Definition ValueWidgetProtocol : class :=
  Class "ValueWidgetProtocol" [WidgetProtocol; Protocol] true
    [ abstractmethod "ValueWidgetProtocol" "_mgui_get_value";
      abstractmethod "ValueWidgetProtocol" "_mgui_set_value";
      abstractmethod "ValueWidgetProtocol" "_mgui_bind_change_callback" ].

Definition RangedWidgetProtocol : class :=
  Class "RangedWidgetProtocol" [ValueWidgetProtocol; Protocol] true
    [ abstractmethod "RangedWidgetProtocol" "_mgui_get_minimum";
      abstractmethod "RangedWidgetProtocol" "_mgui_set_minimum";
      abstractmethod "RangedWidgetProtocol" "_mgui_get_maximum";
      abstractmethod "RangedWidgetProtocol" "_mgui_set_maximum";
      abstractmethod "RangedWidgetProtocol" "_mgui_get_step";
      abstractmethod "RangedWidgetProtocol" "_mgui_set_step" ].

Definition SupportsChoices : class :=
  Class "SupportsChoices" [Protocol] true
    [ abstractmethod "SupportsChoices" "_mgui_get_choices";
      abstractmethod "SupportsChoices" "_mgui_set_choices" ].

Definition CategoricalWidgetProtocol : class :=
  Class "CategoricalWidgetProtocol" [ValueWidgetProtocol; SupportsChoices; Protocol]
    true [].

Definition SupportsText : class :=
  Class "SupportsText" [Protocol] true
    [ abstractmethod "SupportsText" "_mgui_set_text";
      abstractmethod "SupportsText" "_mgui_get_text" ].

Definition ButtonWidgetProtocol : class :=
  Class "ButtonWidgetProtocol" [ValueWidgetProtocol; SupportsText; Protocol]
    true [].

Definition SupportsOrientation : class :=
  Class "SupportsOrientation" [Protocol] true
    [ ("orientation",
       Property "SupportsOrientation.orientation.fget"
                (Some "SupportsOrientation.orientation.fset"));
      abstractmethod "SupportsOrientation" "_mgui_set_orientation";
      abstractmethod "SupportsOrientation" "_mgui_get_orientation" ].

Definition SliderWidgetProtocol : class :=
  Class "SliderWidgetProtocol" [RangedWidgetProtocol; SupportsOrientation; Protocol]
    true [].

(** The one protocol class of the module that carries no
    [@runtime_checkable] decorator. *)
Definition ContainerProtocol : class :=
  Class "ContainerProtocol" [WidgetProtocol; SupportsOrientation; Protocol] false
    [ abstractmethod "ContainerProtocol" "_mgui_add_widget";
      abstractmethod "ContainerProtocol" "_mgui_insert_widget";
      abstractmethod "ContainerProtocol" "_mgui_remove_widget";
      abstractmethod "ContainerProtocol" "_mgui_remove_index";
      abstractmethod "ContainerProtocol" "_mgui_count";
      abstractmethod "ContainerProtocol" "_mgui_index";
      abstractmethod "ContainerProtocol" "_mgui_get_index";
      abstractmethod "ContainerProtocol" "_mgui_get_native_layout";
      abstractmethod "ContainerProtocol" "_mgui_get_margins";
      abstractmethod "ContainerProtocol" "_mgui_set_margins" ].

Definition BaseApplicationBackend : class :=
  Class "BaseApplicationBackend" [ABC] false
    [ abstractmethod "BaseApplicationBackend" "_mgui_get_backend_name";
      abstractmethod "BaseApplicationBackend" "_mgui_process_events";
      abstractmethod "BaseApplicationBackend" "_mgui_run";
      abstractmethod "BaseApplicationBackend" "_mgui_quit";
      abstractmethod "BaseApplicationBackend" "_mgui_get_native_app";
      abstractmethod "BaseApplicationBackend" "_mgui_start_timer";
      abstractmethod "BaseApplicationBackend" "_mgui_stop_timer" ].

(** The protocol classes in the order the module defines them. *)
Definition protocol_classes : list class :=
  [ WidgetProtocol; ValueWidgetProtocol; RangedWidgetProtocol; SupportsChoices;
    CategoricalWidgetProtocol; SupportsText; ButtonWidgetProtocol;
    SupportsOrientation; SliderWidgetProtocol; ContainerProtocol ].

(** ** Class namespaces and attribute lookup *)

Fixpoint assoc {A : Type} (k : string) (l : list (string * A)) : option A :=
  match l with
  | [] => None
  | (k', a) :: t => if String.eqb k k' then Some a else assoc k t
  end.

Definition has_key {A : Type} (k : string) (l : list (string * A)) : bool :=
  match assoc k l with Some _ => true | None => false end.

(** The metaclass is [ABCMeta] (or [typing]'s subclass of it) for [ABC],
    [Protocol] and everything derived from them. *)
Fixpoint is_abc (C : class) : bool :=
  match C with
  | Class n bs _ _ =>
      String.eqb n "ABC" || String.eqb n "Protocol" || existsb is_abc bs
  end.

(** [Protocol.__init_subclass__] runs for every class below [Protocol]. *)
Fixpoint below_protocol (C : class) : bool :=
  match C with
  | Class _ bs _ _ =>
      existsb (fun b => class_eqb b Protocol || below_protocol b) bs
  end.

(** [cls._is_protocol = any(b is Protocol for b in cls.__bases__)] *)
Definition _is_protocol (C : class) : bool :=
  existsb (class_eqb Protocol) (cbases C).

Definition is_root (C : class) : bool :=
  existsb (class_eqb C) [object; Generic; Protocol; ABC].

(** The names class creation adds to the namespace besides those of the
    class body. *)
Definition housekeeping (C : class) : list (string * attr) :=
  [("__module__", Data); ("__doc__", Data)]
  ++ (if forallb is_root (cbases C)
      then [("__dict__", Data); ("__weakref__", Data)] else [])
  ++ (if is_abc C then [("__abstractmethods__", Data); ("_abc_impl", Data)] else [])
  ++ (if below_protocol C
      then [("__parameters__", Data); ("_is_protocol", Data);
            ("__subclasshook__", Data)] else [])
  ++ (if _is_protocol C && forallb is_root (cbases C)
      then [("__init__", Data)] else [])
  ++ (if runtime_checkable C then [("_is_runtime_protocol", Data)] else []).

(** [C.__dict__] *)
Definition class_dict (C : class) : list (string * attr) :=
  if is_root C then [] else housekeeping C ++ cbody C.

(** The first binding of [name] along a resolution order. *)
Fixpoint lookup_mro (l : list class) (name : string) : option attr :=
  match l with
  | [] => None
  | C :: t =>
      match assoc name (class_dict C) with
      | Some a => Some a
      | None => lookup_mro t name
      end
  end.

(** [getattr(C, name, None)] on a class. *)
Definition class_getattr (C : class) (name : string) : option attr :=
  match mro C with
  | Some l => lookup_mro l name
  | None => None
  end.

(** An instance, as the class-level checks see it: its class and the names
    in its own [__dict__].  [hasattr] below tells whether a name is
    there; it does not read the attribute, so it is exact for ordinary
    attributes, while a name bound to a property is only known to be
    bound (reading it runs the getter: see [hasattr_run]). *)
Record instance : Type := Instance { ob_type : class; ob_dict : list string }.

Definition hasattr (o : instance) (name : string) : bool :=
  existsb (String.eqb name) (ob_dict o)
  || match class_getattr (ob_type o) name with Some _ => true | None => false end.

Definition callable (a : option attr) : bool :=
  match a with
  | Some (Function _ _) | Some (Native _) => true
  | _ => false
  end.

(** [getattr(value, "__isabstractmethod__", False)]: a function carries the
    flag the decorator sets, a property is abstract when one of its
    functions is. *)
Definition isabstractmethod (a : option attr) : bool :=
  match a with
  | Some (Function b _) => b
  | Some (AbstractProperty _ _) => true
  | _ => false
  end.

(** ** [abc]: abstract methods and instantiation *)

(** [C.__abstractmethods__] as [ABCMeta.__new__] computes it: the abstract
    names of the class body, and the abstract names of each base that are
    still abstract when looked up on [C]. *)
Fixpoint abstractmethods (C : class) : list string :=
  match C with
  | Class _ bs _ body =>
      if is_abc C then
        map fst (filter (fun b => isabstractmethod (Some (snd b))) body)
        ++ flat_map
             (fun base =>
                filter (fun name => isabstractmethod (class_getattr C name))
                       (abstractmethods base))
             bs
      else []
  end.

(** [C()]: [object.__new__] refuses a class with abstract methods, and a
    protocol class refuses in its [__init__]. *)
Definition instantiate (C : class) : result instance :=
  match mro C with
  | None => Raise (TypeError "Cannot create a consistent method resolution order")
  | Some _ =>
      match abstractmethods C with
      | _ :: _ => Raise (TypeError "Can't instantiate abstract class")
      | [] =>
          if _is_protocol C then Raise (TypeError "Protocols cannot be instantiated")
          else Ret (Instance C [])
      end
  end.

(** ** [typing]: runtime protocol checks *)

Definition EXCLUDED_ATTRIBUTES : list string :=
  [ "__parameters__"; "__orig_bases__"; "__orig_class__"; "_is_protocol";
    "_is_runtime_protocol";
    "__abstractmethods__"; "__annotations__"; "__dict__"; "__doc__";
    "__init__"; "__module__"; "__new__"; "__slots__"; "__subclasshook__";
    "__weakref__"; "__class_getitem__";
    "_MutableMapping__marker" ].

Definition mem (x : string) (l : list string) : bool := existsb (String.eqb x) l.

Fixpoint dedup (l : list string) : list string :=
  match l with
  | [] => []
  | x :: t => if mem x t then dedup t else x :: dedup t
  end.

(** The members of a protocol: every name in the namespace of every class
    of the resolution order except [object], [Protocol] and [Generic],
    special names apart.  (The module has no class-level annotations.) *)
Definition _get_protocol_attrs (cls : class) : list string :=
  match mro cls with
  | None => []
  | Some l =>
      dedup
        (flat_map
           (fun base =>
              if mem (cname base) ["Protocol"; "Generic"] then []
              else filter
                     (fun a => negb (String.prefix "_abc_" a)
                               && negb (mem a EXCLUDED_ATTRIBUTES))
                     (map fst (class_dict base)))
           (removelast l))
  end.

Definition _is_callable_members_only (cls : class) : bool :=
  forallb (fun a => callable (class_getattr cls a)) (_get_protocol_attrs cls).

(** [getattr(cls, "_is_runtime_protocol", False)]: the flag is a class
    attribute, set to [True] by the decorator and to [False] on [Protocol],
    and found along the resolution order like any other. *)
Fixpoint first_runtime_flag (l : list class) : bool :=
  match l with
  | [] => false
  | C :: t =>
      if runtime_checkable C then true
      else if class_eqb C Protocol then false
      else first_runtime_flag t
  end.

Definition _is_runtime_protocol (cls : class) : bool :=
  match mro cls with
  | Some l => first_runtime_flag l
  | None => false
  end.

Definition in_mro (cls other : class) : bool :=
  match mro other with
  | Some l => existsb (class_eqb cls) l
  | None => false
  end.

(** The structural test of [_proto_hook]: every member is in the namespace
    of some class of [other.__mro__]. *)
Definition structural (cls other : class) : bool :=
  match mro other with
  | Some l =>
      forallb (fun a => existsb (fun base => has_key a (class_dict base)) l)
              (_get_protocol_attrs cls)
  | None => false
  end.

(** [issubclass(other, cls)] through [ABCMeta.__subclasscheck__] and the
    protocol's [__subclasshook__].  [from_abc] tells whether the check is
    made on behalf of the [abc] module, in which case the hook declines
    instead of raising.  When the hook declines, [other] is a subclass iff
    [cls] is in its resolution order ([ABCMeta.register] is not used by the
    module and is not modelled). *)
Definition issubclass (from_abc : bool) (other cls : class) : result bool :=
  if negb (_is_protocol cls) then Ret (in_mro cls other)
  else if negb (_is_runtime_protocol cls) then
    if from_abc then Ret (in_mro cls other)
    else Raise (TypeError "Instance and class checks can only be used with @runtime_checkable protocols")
  else if negb (_is_callable_members_only cls) then
    if from_abc then Ret (in_mro cls other)
    else Raise (TypeError "Protocols with non-method members don't support issubclass()")
  else Ret (structural cls other || in_mro cls other).

(** [isinstance(o, cls)], [_ProtocolMeta.__instancecheck__], with the
    members looked up rather than read; [isinstance_run] below reads
    them, and agrees with this for ordinary attributes. *)
Definition isinstance (o : instance) (cls : class) : result bool :=
  if _is_protocol cls && negb (_is_runtime_protocol cls) then
    Raise (TypeError "Instance and class checks can only be used with @runtime_checkable protocols")
  else
    let rest :=
      if _is_protocol cls && forallb (hasattr o) (_get_protocol_attrs cls)
      then Ret true
      else issubclass true (ob_type o) cls in
    if negb (_is_protocol cls) || _is_callable_members_only cls then
      match issubclass false (ob_type o) cls with
      | Ret true => Ret true
      | Ret false => rest
      | Raise e => Raise e
      end
    else rest.

(** ** Calls *)

(** A signature: the parameters after [self], each with its default if it
    has one. *)
Definition signature : Type := list (string * option value).

Fixpoint remove_key {A : Type} (k : string) (l : list (string * A)) : list (string * A) :=
  match l with
  | [] => []
  | (k', a) :: t => if String.eqb k k' then remove_key k t else (k', a) :: remove_key k t
  end.

Definition cons_bound (p : string) (v : value)
    (r : result (list (string * value))) : result (list (string * value)) :=
  match r with
  | Ret bound => Ret ((p, v) :: bound)
  | Raise e => Raise e
  end.

(** Binding of the arguments of a call to the parameters: positional
    arguments first, then keywords, then defaults. *)
Fixpoint bind_arguments (params : signature) (args : list value)
    (kwargs : list (string * value)) : result (list (string * value)) :=
  match params with
  | [] =>
      match args, kwargs with
      | [], [] => Ret []
      | _ :: _, _ => Raise (TypeError "too many positional arguments")
      | [], _ :: _ => Raise (TypeError "got an unexpected keyword argument")
      end
  | (p, default) :: params' =>
      match args with
      | a :: args' =>
          if has_key p kwargs then Raise (TypeError "got multiple values for argument")
          else cons_bound p a (bind_arguments params' args' kwargs)
      | [] =>
          match assoc p kwargs, default with
          | Some v, _ => cons_bound p v (bind_arguments params' [] (remove_key p kwargs))
          | None, Some v => cons_bound p v (bind_arguments params' [] kwargs)
          | None, None => Raise (TypeError "missing a required argument")
          end
      end
  end.

Definition argument (name : string) (bound : list (string * value)) : value :=
  match assoc name bound with Some v => v | None => VNone end.

(** [v in {s1, s2, ...}] for a set of strings.  The value is hashed first;
    a value that cannot be hashed raises [TypeError], except that a set
    is tried again as a frozenset, which can.  Among the values here only
    a string is equal to a string. *)
Definition set_contains (v : value) (strings : list string) : result bool :=
  if hashable v then
    Ret (match v with VStr s => mem s strings | _ => false end)
  else if is_set v then Ret false
  else Raise (TypeError "unhashable type").

Record call : Type :=
  Call { method : string; args : list value; kwargs : list (string * value) }.

Section Semantics.
(** The state of the native toolkit, and the callables a backend
    supplies, which act on it. *)
Variable St : Type.
Variable native : string -> list value -> St -> result value * St.

(** What a method body can observe and change: the toolkit, the
    instance's own attributes, and the record of method calls made on
    the instance. *)
Record world : Type :=
  World { toolkit : St; attrs : list (string * value); calls : list call }.

Definition M (A : Type) : Type := world -> result A * world.

Definition ret {A} (a : A) : M A := fun w => (Ret a, w).
Definition raise {A} (e : exception) : M A := fun w => (Raise e, w).
Definition bind {A B} (c : M A) (k : A -> M B) : M B :=
  fun w =>
    match c w with
    | (Ret a, w') => k a w'
    | (Raise e, w') => (Raise e, w')
    end.
Definition try {A} (r : result A) : M A :=
  match r with Ret a => ret a | Raise e => raise e end.
Definition log (c : call) : M unit :=
  fun w => (Ret tt, World (toolkit w) (attrs w) (calls w ++ [c])).
Definition lift (f : St -> result value * St) : M value :=
  fun w => let (r, t) := f (toolkit w) in (r, World t (attrs w) (calls w)).
Definition store (name : string) (v : value) : M value :=
  fun w => (Ret VNone, World (toolkit w) ((name, v) :: remove_key name (attrs w)) (calls w)).

Notation "x <- c ;; k" := (bind c (fun x => k))
  (at level 61, c at next level, right associativity).

(** A body receives the means to call a method on [self] and its bound
    arguments. *)
Definition self_call : Type := string -> list value -> M value.
Definition body : Type := self_call -> list (string * value) -> M value.

(** [raise NotImplementedError()] *)
Definition raise_NotImplementedError : body :=
  fun _ _ => raise NotImplementedError.

(** A body that consists of a docstring falls through and returns
    [None]. *)
Definition docstring_only : body :=
  fun _ _ => ret VNone.

(** [return self._mgui_get_orientation()] *)
Definition orientation_fget : body :=
  fun self _ => self "_mgui_get_orientation" [].

(** [if value not in {"horizontal", "vertical"}: raise ValueError(...)]
    [self._mgui_set_orientation(value)] *)
Definition orientation_fset : body :=
  fun self bound =>
    let value := argument "value" bound in
    found <- try (set_contains value ["horizontal"; "vertical"]) ;;
    if negb found then
      raise (ValueError "Only horizontal and vertical orientation are currently supported")
    else
      _ <- self "_mgui_set_orientation" [value] ;;
      ret VNone.

Definition def (cls name : string) (params : signature) (b : body)
  : string * (signature * body) :=
  ((cls ++ "." ++ name)%string, (params, b)).

Definition required : option value := None.

(** The functions of the module, by qualified name. *)
Definition functions : list (string * (signature * body)) :=
  [ def "WidgetProtocol" "_mgui_show_widget" [] raise_NotImplementedError;
    def "WidgetProtocol" "_mgui_hide_widget" [] raise_NotImplementedError;
    def "WidgetProtocol" "_mgui_get_enabled" [] raise_NotImplementedError;
    def "WidgetProtocol" "_mgui_set_enabled" [("enabled", required)] raise_NotImplementedError;
    def "WidgetProtocol" "_mgui_get_parent" [] raise_NotImplementedError;
    def "WidgetProtocol" "_mgui_set_parent" [("widget", required)] raise_NotImplementedError;
    def "WidgetProtocol" "_mgui_get_native_widget" [] raise_NotImplementedError;
    def "WidgetProtocol" "_mgui_bind_parent_change_callback" [("callback", required)]
        raise_NotImplementedError;
    def "WidgetProtocol" "_mgui_render" [] raise_NotImplementedError;
    def "ValueWidgetProtocol" "_mgui_get_value" [] raise_NotImplementedError;
    def "ValueWidgetProtocol" "_mgui_set_value" [("value", required)] raise_NotImplementedError;
    def "ValueWidgetProtocol" "_mgui_bind_change_callback" [("callback", required)]
        raise_NotImplementedError;
    def "RangedWidgetProtocol" "_mgui_get_minimum" [] raise_NotImplementedError;
    def "RangedWidgetProtocol" "_mgui_set_minimum" [("value", required)] raise_NotImplementedError;
    def "RangedWidgetProtocol" "_mgui_get_maximum" [] raise_NotImplementedError;
    def "RangedWidgetProtocol" "_mgui_set_maximum" [("value", required)] raise_NotImplementedError;
    def "RangedWidgetProtocol" "_mgui_get_step" [] raise_NotImplementedError;
    def "RangedWidgetProtocol" "_mgui_set_step" [("value", required)] raise_NotImplementedError;
    def "SupportsChoices" "_mgui_get_choices" [] raise_NotImplementedError;
    def "SupportsChoices" "_mgui_set_choices" [("choices", required)] raise_NotImplementedError;
    def "SupportsText" "_mgui_set_text" [("value", required)] raise_NotImplementedError;
    def "SupportsText" "_mgui_get_text" [] raise_NotImplementedError;
    def "SupportsOrientation" "orientation.fget" [] orientation_fget;
    def "SupportsOrientation" "orientation.fset" [("value", required)] orientation_fset;
    def "SupportsOrientation" "_mgui_set_orientation" [("value", required)]
        raise_NotImplementedError;
    def "SupportsOrientation" "_mgui_get_orientation" [] raise_NotImplementedError;
    def "ContainerProtocol" "_mgui_add_widget" [("widget", required)] raise_NotImplementedError;
    def "ContainerProtocol" "_mgui_insert_widget" [("position", required); ("widget", required)]
        raise_NotImplementedError;
    def "ContainerProtocol" "_mgui_remove_widget" [("widget", required)] raise_NotImplementedError;
    def "ContainerProtocol" "_mgui_remove_index" [("position", required)] raise_NotImplementedError;
    def "ContainerProtocol" "_mgui_count" [] raise_NotImplementedError;
    def "ContainerProtocol" "_mgui_index" [("widget", required)] raise_NotImplementedError;
    def "ContainerProtocol" "_mgui_get_index" [("index", required)] raise_NotImplementedError;
    def "ContainerProtocol" "_mgui_get_native_layout" [] raise_NotImplementedError;
    def "ContainerProtocol" "_mgui_get_margins" [] raise_NotImplementedError;
    def "ContainerProtocol" "_mgui_set_margins" [("margins", required)] raise_NotImplementedError;
    def "BaseApplicationBackend" "_mgui_get_backend_name" [] docstring_only;
    def "BaseApplicationBackend" "_mgui_process_events" [] docstring_only;
    def "BaseApplicationBackend" "_mgui_run" [] docstring_only;
    def "BaseApplicationBackend" "_mgui_quit" [] docstring_only;
    def "BaseApplicationBackend" "_mgui_get_native_app" [] docstring_only;
    def "BaseApplicationBackend" "_mgui_start_timer"
        [("interval", Some (VInt 0)); ("on_timeout", Some VNone);
         ("single", Some (VBool false))]
        docstring_only;
    def "BaseApplicationBackend" "_mgui_stop_timer" [] docstring_only ].

(** Calling a function of the module: bind the arguments, run the body. *)
Definition invoke (self : self_call) (qualname : string) (args : list value)
    (kwargs : list (string * value)) : M value :=
  match assoc qualname functions with
  | None => raise (TypeError "not a function of the module")
  | Some (params, b) =>
      bound <- try (bind_arguments params args kwargs) ;;
      b self bound
  end.

(** A call [obj.name(...)], the attribute being resolved along the
    order [l] (the resolution order of the object's class, or what is
    left of it for a [super()] call).  [depth] is what remains of the
    interpreter's recursion limit.  A name bound to a property is read
    first; its value is taken not to be callable. *)
Fixpoint call_method (depth : nat) (l : list class) (name : string)
    (args : list value) (kwargs : list (string * value)) : M value :=
  match depth with
  | 0 => raise RecursionError
  | S depth' =>
      match lookup_mro l name with
      | Some (Function _ qualname) =>
          _ <- log (Call name args kwargs) ;;
          invoke (fun m a => call_method depth' l m a []) qualname args kwargs
      | Some (Native n) =>
          _ <- log (Call name args kwargs) ;;
          lift (native n args)
      | Some (Property fget _) | Some (AbstractProperty fget _) =>
          _ <- invoke (fun m a => call_method depth' l m a []) fget [] [] ;;
          raise (TypeError "object is not callable")
      | Some Data => raise (TypeError "object is not callable")
      | None => raise (AttributeError name)
      end
  end.

(** [obj.name]: a property of the class runs its getter; otherwise the
    instance's own attribute, a bound method, or some other object. *)
Definition get_attribute (depth : nat) (l : list class) (name : string) : M value :=
  match lookup_mro l name with
  | Some (Property fget _) | Some (AbstractProperty fget _) =>
      invoke (fun m a => call_method depth l m a []) fget [] []
  | found =>
      fun w =>
        match assoc name (attrs w), found with
        | Some v, _ => (Ret v, w)
        | None, Some (Function _ _) | None, Some (Native _) => (Ret (VFunc name), w)
        | None, Some _ => (Ret (VObject name), w)
        | None, None => (Raise (AttributeError name), w)
        end
  end.

(** [obj.name = v]: a property of the class runs its setter; otherwise
    the value is stored on the instance. *)
Definition set_attribute (depth : nat) (l : list class) (name : string)
    (v : value) : M value :=
  match lookup_mro l name with
  | Some (Property _ (Some fset)) | Some (AbstractProperty _ (Some fset)) =>
      invoke (fun m a => call_method depth l m a []) fset [v] []
  | Some (Property _ None) | Some (AbstractProperty _ None) =>
      raise (AttributeError "can't set attribute")
  | _ => store name v
  end.

(** ** The runtime check as it runs *)

(** [hasattr(obj, name)]: the attribute is read, so a property runs its
    getter; only an [AttributeError] is taken for absence, any other
    exception propagates. *)
Definition hasattr_run (depth : nat) (l : list class) (name : string) : M bool :=
  fun w =>
    match get_attribute depth l name w with
    | (Ret _, w') => (Ret true, w')
    | (Raise (AttributeError _), w') => (Ret false, w')
    | (Raise e, w') => (Raise e, w')
    end.

(** [hasattr(instance, attr) and
     (not callable(getattr(cls, attr, None)) or getattr(instance, attr) is not None)] *)
Definition member_present (depth : nat) (l : list class) (cls : class)
    (name : string) : M bool :=
  has <- hasattr_run depth l name ;;
  if negb has then ret false
  else if negb (callable (class_getattr cls name)) then ret true
  else v <- get_attribute depth l name ;; ret (negb (is_none v)).

(** [all(... for attr in _get_protocol_attrs(cls))]; the members are taken
    in the order of the list (the order of a Python set is not fixed). *)
Fixpoint all_members (depth : nat) (l : list class) (cls : class)
    (names : list string) : M bool :=
  match names with
  | [] => ret true
  | name :: rest =>
      ok <- member_present depth l cls name ;;
      if ok then all_members depth l cls rest else ret false
  end.

(** [isinstance(obj, cls)] for an object of class [K], as
    [_ProtocolMeta.__instancecheck__] runs it: the class-level tests of
    [isinstance] above, and the members read on the object itself. *)
Definition isinstance_run (depth : nat) (K cls : class) : M bool :=
  if _is_protocol cls && negb (_is_runtime_protocol cls) then
    raise (TypeError "Instance and class checks can only be used with @runtime_checkable protocols")
  else
    let rest :=
      if _is_protocol cls then
        ok <- all_members depth (resolution K) cls (_get_protocol_attrs cls) ;;
        if ok then ret true else try (issubclass true K cls)
      else try (issubclass true K cls) in
    if negb (_is_protocol cls) || _is_callable_members_only cls then
      match issubclass false K cls with
      | Ret true => ret true
      | Ret false => rest
      | Raise e => raise e
      end
    else rest.

(** The object has [name] as an ordinary attribute: not computed by a
    property, and not [None]. *)
Definition implements_in (l : list class) (w : world) (name : string) : bool :=
  match lookup_mro l name with
  | Some (Property _ _) | Some (AbstractProperty _ _) => false
  | found =>
      match assoc name (attrs w), found with
      | Some v, _ => negb (is_none v)
      | None, Some _ => true
      | None, None => false
      end
  end.

(** The object has no attribute [name] at all. *)
Definition lacks (l : list class) (w : world) (name : string) : bool :=
  match lookup_mro l name, assoc name (attrs w) with
  | None, None => true
  | _, _ => false
  end.

(** The call supplies arguments that fit the signature of the function. *)
Definition accepts (qualname : string) (args : list value)
    (kwargs : list (string * value)) : bool :=
  match assoc qualname functions with
  | Some (params, _) =>
      match bind_arguments params args kwargs with
      | Ret _ => true
      | Raise _ => false
      end
  | None => false
  end.

Definition logged (w : world) (c : call) : world :=
  World (toolkit w) (attrs w) (calls w ++ [c]).

End Semantics.

Arguments World {St} toolkit attrs calls.
Arguments toolkit {St} w.
Arguments attrs {St} w.
Arguments calls {St} w.
Arguments logged {St} w c.

(** ** Containers *)

(** Modelled from the spec: the container backend (class [Container] of
    [magicgui/backends/_qtpy/widgets.py], which implements
    [ContainerProtocol]) is not among the sources; [backends/_qtpy/__init__.py]
    only re-exports it.  The specification gives a container an ordered
    sequence of children at positions [0 .. count - 1]; get-by-index
    "returns null rather than erroring on out-of-range", remove-by-index
    "fails with out-of-range error if index is not in [0, count)", and a
    rejected mutation leaves the state unchanged. *)
Module Container.
Definition widget : Type := string.
Definition children : Type := list widget.

Definition _mgui_count (c : children) : Z := Z.of_nat (List.length c).

Definition in_range (c : children) (i : Z) : bool :=
  ((0 <=? i) && (i <? _mgui_count c))%Z.

Definition _mgui_get_index (c : children) (index : Z) : result (option widget) :=
  if in_range c index then Ret (nth_error c (Z.to_nat index)) else Ret None.

Fixpoint remove_nth (n : nat) (c : children) : children :=
  match c, n with
  | [], _ => []
  | _ :: t, O => t
  | x :: t, S n' => x :: remove_nth n' t
  end.

Definition _mgui_remove_index (c : children) (position : Z)
  : result unit * children :=
  if in_range c position then (Ret tt, remove_nth (Z.to_nat position) c)
  else (Raise (IndexError "index out of range"), c).
End Container.

(** * The vocabulary of the contracts *)

(** An object implements an operation when it has an attribute of that
    name, its own or its class's. *)
Definition implements (o : instance) (name : string) : Prop :=
  hasattr o name = true.

Definition widget_operations : list string :=
  [ "_mgui_show_widget"; "_mgui_hide_widget";
    "_mgui_get_enabled"; "_mgui_set_enabled";
    "_mgui_get_parent"; "_mgui_set_parent";
    "_mgui_get_native_widget";
    "_mgui_bind_parent_change_callback";
    "_mgui_render" ].

Definition value_operations : list string :=
  [ "_mgui_get_value"; "_mgui_set_value"; "_mgui_bind_change_callback" ].

Definition ranged_operations : list string :=
  [ "_mgui_get_minimum"; "_mgui_set_minimum";
    "_mgui_get_maximum"; "_mgui_set_maximum";
    "_mgui_get_step"; "_mgui_set_step" ].

Definition choices_operations : list string :=
  [ "_mgui_get_choices"; "_mgui_set_choices" ].

Definition application_operations : list string :=
  [ "_mgui_get_backend_name"; "_mgui_process_events"; "_mgui_run"; "_mgui_quit";
    "_mgui_get_native_app"; "_mgui_start_timer"; "_mgui_stop_timer" ].


(** The compositions the module declares. *)
Definition compositions : list (class * class) :=
  [ (SliderWidgetProtocol, RangedWidgetProtocol);
    (SliderWidgetProtocol, ValueWidgetProtocol);
    (SliderWidgetProtocol, WidgetProtocol);
    (SliderWidgetProtocol, SupportsOrientation);
    (ButtonWidgetProtocol, ValueWidgetProtocol);
    (ButtonWidgetProtocol, SupportsText);
    (CategoricalWidgetProtocol, ValueWidgetProtocol);
    (CategoricalWidgetProtocol, SupportsChoices) ].

(** A class omits an operation of the application contract when no class
    of its resolution order other than [BaseApplicationBackend] binds the
    name. *)
Definition omits (K : class) (name : string) : bool :=
  match mro K with
  | Some l =>
      forallb (fun C => class_eqb C BaseApplicationBackend
                        || negb (has_key name (class_dict C))) l
  | None => false
  end.

Definition orientation_property : attr :=
  Property "SupportsOrientation.orientation.fget"
           (Some "SupportsOrientation.orientation.fset").

Definition orientation_message : string :=
  "Only horizontal and vertical orientation are currently supported".

Definition permitted (v : value) : Prop :=
  v = VStr "horizontal" \/ v = VStr "vertical".

(** ** Example classes and backends *)

Definition native_method (name : string) : string * attr := (name, Native name).

(** Classes that implement the abstract operations of a protocol without
    naming it among their bases. *)
Definition PlainRanged : class :=
  Class "PlainRanged" [object] false
    (map native_method (abstractmethods RangedWidgetProtocol)).

Definition PlainSlider : class :=
  Class "PlainSlider" [object] false
    (map native_method (abstractmethods SliderWidgetProtocol)).


(** A slider that keeps its orientation in an attribute of that name. *)
Definition OrientedSlider : class :=
  Class "OrientedSlider" [PlainSlider] false [("orientation", Data)].

(** A widget that lacks [_mgui_render]. *)
Definition Unrendered : class :=
  Class "Unrendered" [object] false
    (map native_method (removelast widget_operations)).

(** A backend that declares [SliderWidgetProtocol] and overrides the
    abstract operations. *)
Definition DeclaredSlider : class :=
  Class "DeclaredSlider" [SliderWidgetProtocol] false
    (map native_method (abstractmethods SliderWidgetProtocol)).

(** An application backend without [_mgui_stop_timer]. *)
Definition PartialBackend : class :=
  Class "PartialBackend" [BaseApplicationBackend] false
    (map native_method (removelast application_operations)).

Definition FullBackend : class :=
  Class "FullBackend" [BaseApplicationBackend] false
    (map native_method application_operations).

(** A backend that keeps the orientation it is given and starts out with
    one that is neither horizontal nor vertical. *)
Definition keeps_orientation (name : string) (args : list value) (s : value)
  : result value * value :=
  if String.eqb name "_mgui_set_orientation" then (Ret VNone, List.hd VNone args)
  else if String.eqb name "_mgui_get_orientation" then (Ret s, s)
  else (Ret VNone, s).

(** ** Further vocabulary *)

(** The protocol classes that carry the [@runtime_checkable] decorator. *)
Definition decorated_protocols : list class :=
  filter runtime_checkable protocol_classes.

(** No class of the resolution order of [K] other than [D] binds [name]. *)
Definition only_from (D K : class) (name : string) : bool :=
  match mro K with
  | Some l =>
      forallb (fun C => class_eqb C D || negb (has_key name (class_dict C))) l
  | None => false
  end.





(** The tree in the docstring of the module: for each class, the class it
    is drawn under, the capability named beside it ("+ SupportsText"),
    and the methods listed for it. *)
Record documented : Type :=
  Documented { doc_class : class;
               doc_parent : option class;
               doc_mixins : list class;
               doc_methods : list string }.

Definition docstring_tree : list documented :=
  [ Documented WidgetProtocol None []
      [ "_mgui_show_widget"; "_mgui_hide_widget"; "_mgui_get_native_widget" ];
    Documented ValueWidgetProtocol (Some WidgetProtocol) []
      [ "_mgui_get_value"; "_mgui_set_value"; "_mgui_bind_change_callback" ];
    Documented ButtonWidgetProtocol (Some ValueWidgetProtocol) [SupportsText]
      [ "_mgui_get_text"; "_mgui_set_text" ];
    Documented RangedWidgetProtocol (Some ValueWidgetProtocol) []
      [ "_mgui_get_minimum"; "_mgui_set_minimum"; "_mgui_get_maximum";
        "_mgui_set_maximum"; "_mgui_get_step"; "_mgui_set_step" ];
    Documented SliderWidgetProtocol (Some RangedWidgetProtocol) [SupportsOrientation]
      [ "_mgui_get_orientation"; "_mgui_set_orientation" ];
    Documented CategoricalWidgetProtocol (Some ValueWidgetProtocol) []
      [ "_mgui_get_choices"; "_mgui_set_choices" ];
    Documented ContainerProtocol (Some WidgetProtocol) [SupportsOrientation]
      [ "_mgui_add_widget"; "_mgui_insert_widget"; "_mgui_remove_widget";
        "_mgui_remove_index"; "_mgui_count"; "_mgui_index"; "_mgui_get_index";
        "_mgui_get_native_layout" ];
    Documented SupportsText None []
      [ "_mgui_get_text"; "_mgui_set_text" ];
    Documented SupportsOrientation None []
      [ "_mgui_get_orientation"; "_mgui_set_orientation" ] ].

(** The abstract methods declared in the bodies of the protocol classes
    that the tree does not list under any class. *)
Definition undocumented_methods : list string :=
  filter
    (fun name => negb (existsb (fun d => mem name (doc_methods d)) docstring_tree))
    (flat_map
       (fun C => map fst (filter (fun b => isabstractmethod (Some (snd b))) (cbody C)))
       protocol_classes).



(** A backend that declares [ContainerProtocol] and overrides the abstract
    operations. *)
Definition DeclaredContainer : class :=
  Class "DeclaredContainer" [ContainerProtocol] false
    (map native_method (abstractmethods ContainerProtocol)).

(** A slider backend that forgets [_mgui_get_step]. *)
Definition PartialSlider : class :=
  Class "PartialSlider" [SliderWidgetProtocol] false
    (map native_method
       (filter (fun name => negb (String.eqb name "_mgui_get_step"))
               (abstractmethods SliderWidgetProtocol))).

(** * Properties of the class model *)

(** Induction on a class with the property at hand for each of its bases. *)
Lemma class_bases_ind (P : class -> Prop) :
  (forall n bs r d, Forall P bs -> P (Class n bs r d)) ->
  forall C, P C.
Proof.
  intros step. fix IH 1. intros [n bs r d]. apply step.
  induction bs as [|b t IHt]; constructor.
  - apply IH.
  - exact IHt.
Qed.

Lemma option_eqb_eq (s t : option string) :
  option_eqb String.eqb s t = true -> s = t.
Proof.
  destruct s, t; simpl; try discriminate; auto.
  intros H. apply String.eqb_eq in H. now subst.
Qed.

Lemma attr_eqb_eq (a b : attr) : attr_eqb a b = true -> a = b.
Proof.
  destruct a, b; simpl; try discriminate; intros H.
  - apply andb_prop in H as [H1 H2].
    apply Bool.eqb_prop in H1. apply String.eqb_eq in H2. now subst.
  - apply String.eqb_eq in H. now subst.
  - apply andb_prop in H as [H1 H2].
    apply String.eqb_eq in H1. apply option_eqb_eq in H2. now subst.
  - apply andb_prop in H as [H1 H2].
    apply String.eqb_eq in H1. apply option_eqb_eq in H2. now subst.
  - reflexivity.
Qed.

Lemma list_eqb_eq {A} (eqb : A -> A -> bool) :
  (forall x y, eqb x y = true -> x = y) ->
  forall l1 l2, list_eqb eqb l1 l2 = true -> l1 = l2.
Proof.
  intros Heq. induction l1 as [|x t1 IH]; destruct l2 as [|y t2]; simpl;
    try discriminate; auto.
  intros H. apply andb_prop in H as [H1 H2].
  f_equal; auto.
Qed.

Lemma binding_eqb_eq (x y : string * attr) : binding_eqb x y = true -> x = y.
Proof.
  destruct x as [k a], y as [k' a']. unfold binding_eqb. simpl. intros H.
  apply andb_prop in H as [H1 H2].
  apply String.eqb_eq in H1. apply attr_eqb_eq in H2. now subst.
Qed.

Lemma class_eqb_eq (a : class) : forall b, class_eqb a b = true -> a = b.
Proof.
  induction a as [n bs r d IH] using class_bases_ind.
  intros [n' bs' r' d']. simpl. intros H.
  apply andb_prop in H as [H Hd]. apply andb_prop in H as [H Hr].
  apply andb_prop in H as [Hn Hb].
  apply String.eqb_eq in Hn. apply Bool.eqb_prop in Hr.
  apply (list_eqb_eq _ binding_eqb_eq) in Hd. subst.
  f_equal. clear - IH Hb. revert bs' Hb.
  induction IH as [|x t Hx _ IHt]; intros [|y t']; try discriminate; auto.
  intros H. apply andb_prop in H as [H1 H2]. f_equal; auto.
Qed.

(** *** The C3 merge keeps exactly the elements of its inputs *)

Section C3Facts.
Context {A : Type} (eqb : A -> A -> bool).
Hypothesis eqb_eq : forall x y, eqb x y = true -> x = y.

Lemma find_head_In (seqs all : list (list A)) (x : A) :
  find_head eqb seqs all = Some x -> exists s, In s seqs /\ In x s.
Proof.
  induction seqs as [|s rest IH]; simpl; try discriminate.
  destruct s as [|y t].
  - intros H. destruct (IH H) as (s & Hs & Hx). exists s. auto.
  - destruct (existsb (in_tail eqb y) all).
    + intros H. destruct (IH H) as (s & Hs & Hx). exists s. auto.
    + intros H. injection H as ->. exists (x :: t). simpl. auto.
Qed.

Lemma drop_head_incl (x : A) (s : list A) : incl (drop_head eqb x s) s.
Proof.
  destruct s as [|y t]; simpl; [apply incl_refl|].
  destruct (eqb x y); [apply incl_tl|]; apply incl_refl.
Qed.

Lemma merge_sound (fuel : nat) :
  forall seqs l, merge eqb fuel seqs = Some l ->
  forall x, In x l -> exists s, In s seqs /\ In x s.
Proof.
  induction fuel as [|fuel IH]; simpl; try discriminate.
  intros seqs l. destruct (forallb is_nil seqs).
  - intros H. injection H as <-. contradiction.
  - destruct (find_head eqb seqs seqs) as [h|] eqn:Hh; try discriminate.
    destruct (merge eqb fuel (map (drop_head eqb h) seqs)) as [l'|] eqn:Hm;
      try discriminate.
    simpl. intros H. injection H as <-. intros x [<-|Hx].
    + eapply find_head_In; eauto.
    + destruct (IH _ _ Hm x Hx) as (s' & Hs' & Hxs').
      apply in_map_iff in Hs' as (s & <- & Hs).
      exists s. split; auto. eapply drop_head_incl; eauto.
Qed.

Lemma merge_complete (fuel : nat) :
  forall seqs l, merge eqb fuel seqs = Some l ->
  forall s x, In s seqs -> In x s -> In x l.
Proof.
  induction fuel as [|fuel IH]; simpl; try discriminate.
  intros seqs l. destruct (forallb is_nil seqs) eqn:Hnil.
  - intros _ s x Hs Hx. rewrite forallb_forall in Hnil.
    specialize (Hnil s Hs). destruct s; [contradiction|discriminate].
  - destruct (find_head eqb seqs seqs) as [h|] eqn:Hh; try discriminate.
    destruct (merge eqb fuel (map (drop_head eqb h) seqs)) as [l'|] eqn:Hm;
      try discriminate.
    simpl. intros H. injection H as <-. intros s x Hs Hx.
    assert (Hcase : x = h \/ In x (drop_head eqb h s)).
    { destruct s as [|y t]; [contradiction|]. simpl.
      destruct (eqb h y) eqn:E; [|now right].
      apply eqb_eq in E. subst y. destruct Hx as [->|Hx]; auto. }
    destruct Hcase as [->|Hd]; [now left|right].
    eapply IH; eauto. apply in_map. exact Hs.
Qed.
End C3Facts.

Lemma sequence_map_Some {A B} (f : A -> option B) (l : list A) (ls : list B) :
  sequence (map f l) = Some ls ->
  (forall a, In a l -> exists b, f a = Some b /\ In b ls)
  /\ (forall b, In b ls -> exists a, In a l /\ f a = Some b).
Proof.
  revert ls. induction l as [|a t IH]; simpl; intros ls H.
  - injection H as <-. split; intros ? [].
  - destruct (f a) as [b|] eqn:Hf; try discriminate.
    destruct (sequence (map f t)) as [r|] eqn:Hr; try discriminate.
    injection H as <-. destruct (IH r eq_refl) as [IH1 IH2]. split.
    + intros a' [<-|Ha]; [exists b; simpl; auto|].
      destruct (IH1 a' Ha) as (b' & ? & ?). exists b'. simpl. auto.
    + intros b' [<-|Hb]; [exists a; auto|].
      destruct (IH2 b' Hb) as (a' & ? & ?). exists a'. auto.
Qed.

Lemma mro_unfold (C : class) (l : list class) :
  mro C = Some l ->
  exists ls m,
    sequence (map mro (cbases C)) = Some ls
    /\ merge class_eqb (S (List.length (List.concat ls) + List.length (cbases C)))
             (ls ++ [cbases C])%list = Some m
    /\ l = C :: m.
Proof.
  destruct C as [n bs r d]. cbn -[merge].
  destruct (sequence (map mro bs)) as [ls|]; try discriminate.
  destruct (merge class_eqb _ _) as [m|] eqn:Hm; try discriminate.
  cbn -[merge]. intros H. injection H as <-. exists ls, m. auto.
Qed.

Lemma mro_head (C : class) (l : list class) : mro C = Some l -> In C l.
Proof.
  intros H. apply mro_unfold in H as (ls & m & _ & _ & ->). now left.
Qed.

(** A resolution order contains the resolution order of each of its
    classes. *)
Lemma mro_closed (K : class) :
  forall l, mro K = Some l ->
  forall P, In P l -> exists lp, mro P = Some lp /\ incl lp l.
Proof.
  induction K as [n bs r d IH] using class_bases_ind.
  intros l Hl P HP.
  destruct (mro_unfold _ _ Hl) as (ls & m & Hseq & Hm & ->).
  cbn [cbases] in Hseq, Hm.
  destruct (sequence_map_Some _ _ _ Hseq) as [Hfwd Hbwd].
  destruct HP as [<-|HP].
  { exists (Class n bs r d :: m). split; [exact Hl|apply incl_refl]. }
  assert (Hbase : forall B lb, In B bs -> mro B = Some lb -> incl lb m).
  { intros B lb HB HlB x Hx.
    destruct (Hfwd B HB) as (lb' & HlB' & Hin). rewrite HlB in HlB'.
    injection HlB' as <-.
    eapply (merge_complete class_eqb class_eqb_eq); eauto.
    apply in_or_app. now left. }
  destruct (merge_sound class_eqb (S _) _ _ Hm P HP) as (s & Hs & HPs).
  apply in_app_or in Hs as [Hs|[<-|[]]].
  - destruct (Hbwd s Hs) as (B & HB & HlB).
    rewrite Forall_forall in IH.
    destruct (IH B HB s HlB P HPs) as (lp & Hlp & Hincl).
    exists lp. split; auto.
    intros x Hx. right. eapply Hbase; eauto.
  - destruct (Hfwd P HPs) as (lp & Hlp & _).
    exists lp. split; auto.
    intros x Hx. right. eapply Hbase; eauto.
Qed.

Lemma mro_inv (K : class) (l : list class) :
  mro K = Some l ->
  forall P, In P l ->
  P = K \/ exists B lb, In B (cbases K) /\ mro B = Some lb /\ In P lb /\ incl lb l.
Proof.
  intros Hl P HP.
  destruct (mro_unfold _ _ Hl) as (ls & m & Hseq & Hm & ->).
  destruct (sequence_map_Some _ _ _ Hseq) as [Hfwd Hbwd].
  destruct HP as [<-|HP]; [now left|right].
  assert (Hbase : forall lb, In lb ls -> incl lb (K :: m)).
  { intros lb Hin x Hx. right.
    eapply (merge_complete class_eqb class_eqb_eq); eauto.
    apply in_or_app. now left. }
  destruct (merge_sound class_eqb (S _) _ _ Hm P HP) as (s & Hs & HPs).
  apply in_app_or in Hs as [Hs|[<-|[]]].
  - destruct (Hbwd s Hs) as (B & HB & HlB). exists B, s. auto.
  - destruct (Hfwd P HPs) as (lp & Hlp & Hin).
    exists P, lp. repeat split; auto. eapply mro_head; eauto.
Qed.

(** *** Attribute lookup *)

Lemma In_dedup (x : string) (l : list string) : In x (dedup l) -> In x l.
Proof.
  induction l as [|y t IH]; simpl; auto.
  destruct (mem y t); simpl; intuition.
Qed.

Lemma In_removelast {A} (x : A) (l : list A) : In x (removelast l) -> In x l.
Proof.
  induction l as [|y t IH]; simpl; auto.
  destruct t; [contradiction|]. intros [->|H]; auto.
Qed.

Lemma has_key_In {A} (k : string) (d : list (string * A)) :
  In k (map fst d) -> has_key k d = true.
Proof.
  unfold has_key. induction d as [|[k' a] t IH]; simpl; [contradiction|].
  destruct (String.eqb k k') eqn:E; auto.
  intros [H|H]; auto. subst. now rewrite String.eqb_refl in E.
Qed.

Lemma lookup_mro_defined (l : list class) (C : class) (a : string) :
  In C l -> has_key a (class_dict C) = true ->
  exists x, lookup_mro l a = Some x.
Proof.
  unfold has_key. induction l as [|D t IH]; simpl; [contradiction|].
  intros HC Hk. destruct (assoc a (class_dict D)) as [x|] eqn:E; eauto.
  destruct HC as [->|HC]; auto. now rewrite E in Hk.
Qed.

(** Only one class of the order binds the name: that binding is found. *)
Lemma lookup_mro_only (l : list class) (D : class) (name : string) (a : attr) :
  (forall C, In C l -> C = D \/ has_key name (class_dict C) = false) ->
  In D l -> assoc name (class_dict D) = Some a ->
  lookup_mro l name = Some a.
Proof.
  unfold has_key. induction l as [|C t IH]; simpl; [contradiction|].
  intros Hall HD Ha.
  destruct (Hall C (or_introl eq_refl)) as [->|HC].
  - now rewrite Ha.
  - destruct (assoc name (class_dict C)) eqn:E; [discriminate|].
    destruct HD as [HD|HD]; [subst; congruence|].
    apply IH; auto.
Qed.

Lemma protocol_attrs_defined (cls : class) (lc : list class) (a : string) :
  mro cls = Some lc -> In a (_get_protocol_attrs cls) ->
  exists base, In base lc /\ has_key a (class_dict base) = true.
Proof.
  unfold _get_protocol_attrs. intros ->. intros H.
  apply In_dedup in H. apply in_flat_map in H as (base & Hb & Ha).
  exists base. split; [now apply In_removelast|].
  destruct (mem (cname base) ["Protocol"; "Generic"]); [contradiction|].
  apply filter_In in Ha as [Ha _]. now apply has_key_In.
Qed.

Lemma hasattr_class (o : instance) (l : list class) (C : class) (a : string) :
  mro (ob_type o) = Some l -> In C l -> has_key a (class_dict C) = true ->
  hasattr o a = true.
Proof.
  intros Hl HC Hk. unfold hasattr, class_getattr. rewrite Hl.
  destruct (lookup_mro_defined l C a HC Hk) as (x & ->).
  apply orb_true_r.
Qed.

(** *** The runtime check of a runtime-checkable protocol *)

Lemma in_mro_hasattr (o : instance) (cls : class) :
  in_mro cls (ob_type o) = true ->
  forallb (hasattr o) (_get_protocol_attrs cls) = true.
Proof.
  unfold in_mro. destruct (mro (ob_type o)) as [l|] eqn:Hl; try discriminate.
  intros H. apply existsb_exists in H as (C & HC & E).
  apply class_eqb_eq in E. subst C.
  destruct (mro_closed _ _ Hl cls HC) as (lc & Hlc & Hincl).
  apply forallb_forall. intros a Ha.
  destruct (protocol_attrs_defined _ _ _ Hlc Ha) as (base & Hb & Hk).
  eapply hasattr_class; [exact Hl|apply Hincl, Hb|exact Hk].
Qed.

Lemma structural_hasattr (o : instance) (cls : class) :
  structural cls (ob_type o) = true ->
  forallb (hasattr o) (_get_protocol_attrs cls) = true.
Proof.
  unfold structural. destruct (mro (ob_type o)) as [l|] eqn:Hl; try discriminate.
  intros H. apply forallb_forall. intros a Ha.
  rewrite forallb_forall in H. specialize (H a Ha).
  apply existsb_exists in H as (base & Hb & Hk).
  eapply hasattr_class; eauto.
Qed.

(** Against a protocol that is runtime-checkable the check never raises,
    and it succeeds exactly when the object has every member of the
    protocol. *)
Lemma isinstance_runtime_protocol (o : instance) (cls : class) :
  _is_protocol cls = true -> _is_runtime_protocol cls = true ->
  isinstance o cls = Ret (forallb (hasattr o) (_get_protocol_attrs cls)).
Proof.
  intros Hp Hr. unfold isinstance, issubclass. rewrite Hp, Hr. simpl.
  pose proof (in_mro_hasattr o cls) as Hn.
  pose proof (structural_hasattr o cls) as Hs.
  destruct (forallb (hasattr o) (_get_protocol_attrs cls)).
  - destruct (_is_callable_members_only cls); simpl; auto.
    destruct (structural cls (ob_type o) || in_mro cls (ob_type o)); auto.
  - destruct (in_mro cls (ob_type o)); [now discriminate Hn|].
    destruct (structural cls (ob_type o)); [now discriminate Hs|].
    destruct (_is_callable_members_only cls); reflexivity.
Qed.

Lemma conforms_iff (o : instance) (cls : class) :
  _is_protocol cls = true -> _is_runtime_protocol cls = true ->
  isinstance o cls = Ret true <->
  forall m, In m (_get_protocol_attrs cls) -> hasattr o m = true.
Proof.
  intros Hp Hr. rewrite (isinstance_runtime_protocol o cls Hp Hr).
  rewrite <- forallb_forall. split; [now intros [=]|now intros ->].
Qed.

Lemma mem_In (x : string) (l : list string) : mem x l = true <-> In x l.
Proof.
  unfold mem. rewrite existsb_exists. split.
  - intros (y & Hy & E). apply String.eqb_eq in E. now subst.
  - intros H. exists x. split; auto. apply String.eqb_refl.
Qed.

Lemma subset_incl (l1 l2 : list string) :
  forallb (fun a => mem a l2) l1 = true -> incl l1 l2.
Proof.
  rewrite forallb_forall. intros H a Ha. apply mem_In. auto.
Qed.

(** Conformance to a runtime-checkable protocol carries over to every
    runtime-checkable protocol with fewer members. *)
Lemma conforms_weaken (o : instance) (P Q : class) :
  _is_protocol P = true -> _is_runtime_protocol P = true ->
  _is_protocol Q = true -> _is_runtime_protocol Q = true ->
  forallb (fun a => mem a (_get_protocol_attrs P)) (_get_protocol_attrs Q) = true ->
  isinstance o P = Ret true -> isinstance o Q = Ret true.
Proof.
  intros HP1 HP2 HQ1 HQ2 Hsub H.
  rewrite conforms_iff in H by assumption.
  apply conforms_iff; try assumption.
  intros m Hm. apply H. eapply subset_incl; eauto.
Qed.

Lemma abstractmethods_unfold (C : class) :
  abstractmethods C =
  if is_abc C then
    map fst (filter (fun b => isabstractmethod (Some (snd b))) (cbody C))
    ++ flat_map
         (fun base =>
            filter (fun name => isabstractmethod (class_getattr C name))
                   (abstractmethods base))
         (cbases C)
  else [].
Proof. destruct C. reflexivity. Qed.

Lemma is_abc_base (C B : class) : In B (cbases C) -> is_abc B = true -> is_abc C = true.
Proof.
  destruct C as [n bs r d]. simpl. intros HB Hb.
  apply orb_true_iff. right. apply existsb_exists. eauto.
Qed.

Lemma implements_all (o : instance) (l : list string) :
  forallb (hasattr o) l = true -> forall m, In m l -> implements o m.
Proof. intros H. now apply forallb_forall. Qed.

Example full_backend_instantiates :
  instantiate FullBackend = Ret (Instance FullBackend []).
Proof. reflexivity. Qed.

Example declared_slider_instantiates :
  instantiate DeclaredSlider = Ret (Instance DeclaredSlider []).
Proof. reflexivity. Qed.

Example plain_slider_instantiates :
  instantiate PlainSlider = Ret (Instance PlainSlider []).
Proof. reflexivity. Qed.

(** [ContainerProtocol] is not decorated; the flag it is checked by is the
    one it inherits from [WidgetProtocol]. *)
Example container_protocol_flag :
  runtime_checkable ContainerProtocol = false
  /\ _is_runtime_protocol ContainerProtocol = true
  /\ isinstance (Instance OrientedSlider []) SliderWidgetProtocol = Ret true.
Proof. repeat split. Qed.

(** ** Discoverability through the runtime check *)

Ltac checkable := apply conforms_iff; [reflexivity | reflexivity |].

(** C4.  An object is an instance of [RangedWidgetProtocol] if and only if
    it implements the six range operations and every operation inherited
    from [ValueWidgetProtocol] and [WidgetProtocol]; the bases its class
    declares play no part: two objects with the same attributes fare the
    same. *)
Theorem ranged_conformance_structural (o : instance) :
  (isinstance o RangedWidgetProtocol = Ret true <->
   forall m, In m (ranged_operations ++ value_operations ++ widget_operations) ->
             implements o m)
  /\ (forall o', (forall m, hasattr o' m = hasattr o m) ->
                 isinstance o' RangedWidgetProtocol
                 = isinstance o RangedWidgetProtocol).
Proof.
  split.
  - rewrite conforms_iff by reflexivity.
    change (_get_protocol_attrs RangedWidgetProtocol)
      with (ranged_operations ++ value_operations ++ widget_operations)%list.
    reflexivity.
  - intros o' Hsame.
    rewrite !isinstance_runtime_protocol by reflexivity. f_equal.
    induction (_get_protocol_attrs RangedWidgetProtocol) as [|a t IH]; simpl.
    + reflexivity.
    + now rewrite Hsame, IH.
Qed.

Lemma ranged_conformance_structural_witness :
  isinstance (Instance PlainRanged []) RangedWidgetProtocol = Ret true
  /\ implements (Instance DeclaredSlider []) "_mgui_get_step".
Proof.
  split.
  - apply (proj2 (proj1 (ranged_conformance_structural (Instance PlainRanged [])))).
    apply implements_all. reflexivity.
  - apply (proj1 (proj1 (ranged_conformance_structural (Instance DeclaredSlider [])))).
    + reflexivity.
    + simpl. tauto.
Defined.

(** C6.  An instance of [SliderWidgetProtocol] is an instance of
    [RangedWidgetProtocol], [ValueWidgetProtocol], [WidgetProtocol] and
    [SupportsOrientation]; an instance of [ButtonWidgetProtocol] is one of
    [ValueWidgetProtocol] and [SupportsText]; an instance of
    [CategoricalWidgetProtocol] is one of [ValueWidgetProtocol] and
    [SupportsChoices]. *)
Theorem capability_composition (o : instance) (sub sup : class) :
  In (sub, sup) compositions ->
  isinstance o sub = Ret true -> isinstance o sup = Ret true.
Proof.
  intros Hin. simpl in Hin.
  repeat (destruct Hin as [[= <- <-]|Hin];
          [apply conforms_weaken; reflexivity|]).
  contradiction.
Qed.

Lemma capability_composition_witness :
  isinstance (Instance OrientedSlider []) SupportsOrientation = Ret true
  /\ isinstance (Instance DeclaredSlider []) RangedWidgetProtocol = Ret true.
Proof.
  split.
  - apply (capability_composition (Instance OrientedSlider [])
             SliderWidgetProtocol SupportsOrientation).
    + simpl. tauto.
    + reflexivity.
  - apply (capability_composition (Instance DeclaredSlider [])
             SliderWidgetProtocol RangedWidgetProtocol).
    + simpl. tauto.
    + reflexivity.
Defined.

(** C7.  [WidgetProtocol] requires show, hide, get and set of the enabled
    state, get and set of the parent, the native widget, the binding of a
    parent-change callback and rendering, and nothing else (no value,
    range or choice operation); an object that lacks one of them is not an
    instance of [WidgetProtocol]. *)
Theorem widget_contract_exact :
  abstractmethods WidgetProtocol = widget_operations
  /\ _get_protocol_attrs WidgetProtocol = widget_operations
  /\ (forall m, In m (value_operations ++ ranged_operations ++ choices_operations) ->
                ~ In m (_get_protocol_attrs WidgetProtocol))
  /\ (forall o, (forall m, In m widget_operations -> implements o m) ->
                isinstance o WidgetProtocol = Ret true)
  /\ (forall o m, In m widget_operations -> hasattr o m = false ->
                  isinstance o WidgetProtocol = Ret false).
Proof.
  split; [reflexivity|]. split; [reflexivity|]. split; [|split].
  - intros m Hm Hin. apply mem_In in Hm. apply mem_In in Hin.
    revert Hm Hin.
    assert (H : forallb (fun m => negb (mem m (_get_protocol_attrs WidgetProtocol)))
                  (value_operations ++ ranged_operations ++ choices_operations) = true)
      by reflexivity.
    rewrite forallb_forall in H. intros Hm Hin.
    apply mem_In in Hm. specialize (H m Hm). rewrite Hin in H. discriminate.
  - intros o H. checkable. exact H.
  - intros o m Hm Hno.
    rewrite isinstance_runtime_protocol by reflexivity. f_equal.
    destruct (forallb (hasattr o) (_get_protocol_attrs WidgetProtocol)) eqn:E; auto.
    rewrite forallb_forall in E. rewrite (E m Hm) in Hno. discriminate.
Qed.

Lemma widget_contract_exact_witness :
  isinstance (Instance Unrendered []) WidgetProtocol = Ret false
  /\ isinstance (Instance PlainRanged []) WidgetProtocol = Ret true.
Proof.
  destruct widget_contract_exact as (_ & _ & _ & Hyes & Hno). split.
  - apply (Hno (Instance Unrendered []) "_mgui_render").
    + simpl. tauto.
    + reflexivity.
  - apply (Hyes (Instance PlainRanged [])).
    apply implements_all. reflexivity.
Defined.

(** ** The application backend is abstract *)

Lemma application_operations_abstract (name : string) :
  In name application_operations ->
  exists q, assoc name (class_dict BaseApplicationBackend) = Some (Function true q).
Proof.
  intros H. simpl in H.
  repeat (destruct H as [<-|H]; [eexists; reflexivity|]).
  contradiction.
Qed.

(** An operation that a descendant of [BaseApplicationBackend] omits stays
    in the set of abstract methods all the way down. *)
Lemma omitted_stays_abstract (name : string) :
  In name application_operations ->
  forall K l,
    mro K = Some l -> In BaseApplicationBackend l ->
    (forall C, In C l ->
               C = BaseApplicationBackend \/ has_key name (class_dict C) = false) ->
    In name (abstractmethods K) /\ is_abc K = true.
Proof.
  intros Hname K.
  induction K as [n bs r d IH] using class_bases_ind.
  intros l Hl Hin Hom.
  destruct (mro_inv _ _ Hl _ Hin) as [E|(B & lb & HB & HlB & HinB & Hincl)].
  - rewrite <- E. split; [exact Hname|reflexivity].
  - rewrite Forall_forall in IH.
    destruct (IH B HB lb HlB HinB) as [Habs Habc].
    { intros C HC. apply Hom. apply Hincl, HC. }
    assert (Hme : is_abc (Class n bs r d) = true) by (eapply is_abc_base; eauto).
    split; [|exact Hme].
    rewrite abstractmethods_unfold, Hme. apply in_or_app. right.
    apply in_flat_map. exists B. split; [exact HB|].
    apply filter_In. split; [exact Habs|].
    destruct (application_operations_abstract name Hname) as (q & Hq).
    unfold class_getattr. rewrite Hl.
    now rewrite (lookup_mro_only l BaseApplicationBackend name _ Hom Hin Hq).
Qed.

(** C10.  [BaseApplicationBackend] has seven abstract methods; constructing
    an instance of it, or of a subclass that omits one of them, fails with
    a [TypeError]. *)
Theorem application_backend_abstract :
  abstractmethods BaseApplicationBackend = application_operations
  /\ List.length application_operations = 7
  /\ instantiate BaseApplicationBackend
     = Raise (TypeError "Can't instantiate abstract class")
  /\ (forall K name,
        in_mro BaseApplicationBackend K = true ->
        In name application_operations ->
        omits K name = true ->
        instantiate K = Raise (TypeError "Can't instantiate abstract class")).
Proof.
  repeat (split; [reflexivity|]).
  intros K name Hsub Hname Hom.
  unfold in_mro in Hsub. unfold omits in Hom. unfold instantiate.
  destruct (mro K) as [l|] eqn:Hl; try discriminate.
  apply existsb_exists in Hsub as (C & HC & E).
  apply class_eqb_eq in E. subst C.
  rewrite forallb_forall in Hom.
  destruct (omitted_stays_abstract name Hname K l Hl HC) as [Habs _].
  { intros C HC'. specialize (Hom C HC').
    apply orb_true_iff in Hom as [E|E].
    - left. now apply class_eqb_eq.
    - right. now destruct (has_key name (class_dict C)). }
  destruct (abstractmethods K); [contradiction|reflexivity].
Qed.

Lemma application_backend_abstract_witness :
  instantiate PartialBackend = Raise (TypeError "Can't instantiate abstract class").
Proof.
  destruct application_backend_abstract as (_ & _ & _ & H).
  apply (H PartialBackend "_mgui_stop_timer").
  - reflexivity.
  - simpl. tauto.
  - reflexivity.
Defined.

(** ** Method bodies *)

Section Bodies.
Variable St : Type.
Variable native : string -> list value -> St -> result value * St.

Lemma invoke_body (self : self_call St) (q : string) (params : signature)
    (b : body St) (args : list value) (kwargs : list (string * value)) :
  assoc q (functions St) = Some (params, b) ->
  accepts St q args kwargs = true ->
  exists bound, invoke St self q args kwargs = b self bound.
Proof.
  unfold accepts, invoke. intros ->.
  destruct (bind_arguments params args kwargs) as [bound|e]; try discriminate.
  intros _. exists bound. reflexivity.
Qed.

(** Every abstract method of a protocol class has the body
    [raise NotImplementedError()]. *)
Lemma protocol_stubs (P : class) (name q : string) :
  In P protocol_classes -> In (name, Function true q) (cbody P) ->
  exists params,
    assoc q (functions St) = Some (params, raise_NotImplementedError St).
Proof.
  intros HP H. simpl in HP.
  repeat (destruct HP as [<-|HP];
          [simpl in H;
           repeat (destruct H as [E|H];
                   [inversion E; subst; eexists; reflexivity|]);
           contradiction|]).
  contradiction.
Qed.

(** Every method of [BaseApplicationBackend] has a docstring for body. *)
Lemma application_stubs (name q : string) :
  In (name, Function true q) (cbody BaseApplicationBackend) ->
  exists params, assoc q (functions St) = Some (params, docstring_only St).
Proof.
  intros H. simpl in H.
  repeat (destruct H as [[= <- <-]|H]; [eexists; reflexivity|]).
  contradiction.
Qed.

(** C3 (as amended).  When a call resolves to an abstract method of a
    protocol class (the object's class does not override it, or the
    override delegates to it), the call raises [NotImplementedError].
    The seven methods of [BaseApplicationBackend] do not: their bodies
    are docstrings, and a call that resolves to one of them returns
    [None]. *)
Theorem inherited_abstract_methods
    (name q : string) (l : list class) (depth : nat)
    (args : list value) (kwargs : list (string * value)) (w : world St) :
  lookup_mro l name = Some (Function true q) ->
  accepts St q args kwargs = true ->
  (forall P, In P protocol_classes -> In (name, Function true q) (cbody P) ->
     call_method St native (S depth) l name args kwargs w
     = (Raise NotImplementedError, logged w (Call name args kwargs)))
  /\ (In (name, Function true q) (cbody BaseApplicationBackend) ->
      call_method St native (S depth) l name args kwargs w
      = (Ret VNone, logged w (Call name args kwargs))).
Proof.
  intros Hl Hacc. split.
  - intros P HP Hin.
    destruct (protocol_stubs P name q HP Hin) as (params & Hq).
    destruct (invoke_body (fun m a => call_method St native depth l m a [])
                q params _ args kwargs Hq Hacc) as (bound & Hinv).
    simpl. rewrite Hl. unfold bind, log. rewrite Hinv. reflexivity.
  - intros Hin.
    destruct (application_stubs name q Hin) as (params & Hq).
    destruct (invoke_body (fun m a => call_method St native depth l m a [])
                q params _ args kwargs Hq Hacc) as (bound & Hinv).
    simpl. rewrite Hl. unfold bind, log. rewrite Hinv. reflexivity.
Qed.

(** C8.  [_mgui_start_timer] takes an interval that defaults to 0, a
    timeout callback that defaults to [None] and a single-shot flag that
    defaults to [False]; a call with interval 0 and the single-shot flag
    binds. *)
Theorem start_timer_signature :
  assoc "_mgui_start_timer" (cbody BaseApplicationBackend)
  = Some (Function true "BaseApplicationBackend._mgui_start_timer")
  /\ exists params,
      option_map fst
        (assoc "BaseApplicationBackend._mgui_start_timer" (functions St))
      = Some params
      /\ params = [ ("interval", Some (VInt 0)); ("on_timeout", Some VNone);
                    ("single", Some (VBool false)) ]
      /\ bind_arguments params [] []
         = Ret [ ("interval", VInt 0); ("on_timeout", VNone);
                 ("single", VBool false) ]
      /\ (forall single,
            bind_arguments params []
              [("interval", VInt 0); ("single", VBool single)]
            = Ret [ ("interval", VInt 0); ("on_timeout", VNone);
                    ("single", VBool single) ])
      /\ (forall interval on_timeout single,
            bind_arguments params [interval; on_timeout; single] []
            = Ret [ ("interval", interval); ("on_timeout", on_timeout);
                    ("single", single) ])
      /\ accepts St "BaseApplicationBackend._mgui_start_timer"
           [VInt 0] [("single", VBool true)] = true.
Proof.
  split; [reflexivity|]. eexists. split; [reflexivity|].
  repeat split.
Qed.
End Bodies.

Lemma inherited_abstract_methods_witness :
  call_method unit (fun _ _ s => (Ret VNone, s)) 1 (resolution WidgetProtocol)
    "_mgui_set_enabled" [VBool true] [] (World tt [] [])
  = (Raise NotImplementedError,
     World tt [] [Call "_mgui_set_enabled" [VBool true] []]).
Proof.
  apply (proj1 (inherited_abstract_methods unit (fun _ _ s => (Ret VNone, s))
                  "_mgui_set_enabled" "WidgetProtocol._mgui_set_enabled"
                  (resolution WidgetProtocol) 0 [VBool true] [] (World tt [] [])
                  eq_refl eq_refl) WidgetProtocol).
  - simpl. tauto.
  - simpl. tauto.
Defined.

(** C3 fails as stated: [_mgui_run], invoked as [BaseApplicationBackend]
    defines it, returns [None]. *)
Lemma application_method_returns_none :
  call_method unit (fun _ _ s => (Ret VNone, s)) 1
    (resolution BaseApplicationBackend) "_mgui_run" [] [] (World tt [] [])
  = (Ret VNone, World tt [] [Call "_mgui_run" [] []])
  /\ fst (call_method unit (fun _ _ s => (Ret VNone, s)) 1
            (resolution BaseApplicationBackend) "_mgui_run" [] [] (World tt [] []))
     <> Raise NotImplementedError.
Proof. split; [reflexivity|discriminate]. Qed.

(** ** The orientation property *)

Lemma set_contains_rejects (v : value) :
  hashable v = true \/ is_set v = true -> ~ permitted v ->
  set_contains v ["horizontal"; "vertical"] = Ret false.
Proof.
  unfold set_contains, permitted. intros Hkind Hnot.
  destruct (hashable v) eqn:Hh.
  - destruct v; try reflexivity. f_equal. simpl.
    destruct (String.eqb s "horizontal") eqn:E1.
    { apply String.eqb_eq in E1. subst. tauto. }
    destruct (String.eqb s "vertical") eqn:E2.
    { apply String.eqb_eq in E2. subst. tauto. }
    reflexivity.
  - destruct Hkind as [Hk|Hk]; [discriminate|]. now rewrite Hk.
Qed.

Section Orientation.
Variable St : Type.
Variable native : string -> list value -> St -> result value * St.

(** The resolution order of an object that supports orientation: the
    name [orientation] resolves to the property of
    [SupportsOrientation]. *)
Variable l : list class.
Hypothesis supports_orientation :
  lookup_mro l "orientation" = Some orientation_property.

(** C2 (as amended).  Assigning [v] to [orientation] raises [ValueError]
    when [v] is not one of the strings "horizontal" and "vertical" and is
    hashable or a set, and [TypeError] when [v] is unhashable and not a
    set (the membership test hashes [v]; a set is tried again as a
    frozenset and is found not to be a member); in both cases nothing
    changes and [_mgui_set_orientation] is not called.  When [v] is one
    of the two strings, [_mgui_set_orientation] is called once, with
    [v]. *)
Theorem orientation_assignment (depth : nat) (v : value) (w : world St) :
  (~ permitted v -> hashable v = true \/ is_set v = true ->
     set_attribute St native (S depth) l "orientation" v w
     = (Raise (ValueError orientation_message), w))
  /\ (hashable v = false -> is_set v = false ->
        set_attribute St native (S depth) l "orientation" v w
        = (Raise (TypeError "unhashable type"), w))
  /\ (permitted v ->
        forall setter,
          lookup_mro l "_mgui_set_orientation" = Some (Native setter) ->
          set_attribute St native (S depth) l "orientation" v w
          = (match fst (native setter [v] (toolkit w)) with
             | Ret _ => Ret VNone
             | Raise e => Raise e
             end,
             World (snd (native setter [v] (toolkit w))) (attrs w)
                   (calls w ++ [Call "_mgui_set_orientation" [v] []]))).
Proof.
  unfold set_attribute. rewrite supports_orientation. unfold orientation_property.
  change (invoke St (fun m a => call_method St native (S depth) l m a [])
                 "SupportsOrientation.orientation.fset" [v] [])
    with (orientation_fset St
            (fun m a => call_method St native (S depth) l m a [])
            [("value", v)]).
  unfold orientation_fset, argument. simpl assoc. unfold bind, try.
  split; [|split].
  - intros Hnot Hkind. rewrite (set_contains_rejects v Hkind Hnot). reflexivity.
  - intros Hh Hs. unfold set_contains. rewrite Hh, Hs. reflexivity.
  - intros Hv setter Hset.
    assert (Hin : set_contains v ["horizontal"; "vertical"] = Ret true)
      by (destruct Hv as [-> | ->]; reflexivity).
    rewrite Hin. simpl. rewrite Hset. unfold bind, log, lift, ret. simpl.
    destruct (native setter [v] (toolkit w)) as [[r|e] t]; reflexivity.
Qed.

(** C9.  Reading [orientation] is calling [_mgui_get_orientation]: same
    result, same effect; whatever the backend returns is returned, and
    an exception is raised only if the backend raises it. *)
Theorem orientation_read (depth : nat) (w : world St) :
  get_attribute St native depth l "orientation" w
  = call_method St native depth l "_mgui_get_orientation" [] [] w
  /\ (forall getter,
        lookup_mro l "_mgui_get_orientation" = Some (Native getter) ->
        fst (get_attribute St native (S depth) l "orientation" w)
        = fst (native getter [] (toolkit w))).
Proof.
  unfold get_attribute. rewrite supports_orientation. unfold orientation_property.
  split; [reflexivity|].
  intros getter Hget.
  change (invoke St (fun m a => call_method St native (S depth) l m a [])
                 "SupportsOrientation.orientation.fget" [] [] w)
    with (call_method St native (S depth) l "_mgui_get_orientation" [] [] w).
  simpl. rewrite Hget. unfold bind, log, lift. simpl.
  destruct (native getter [] (toolkit w)) as [r t]. reflexivity.
Qed.
End Orientation.

Lemma orientation_assignment_witness :
  set_attribute value keeps_orientation 1 (resolution DeclaredSlider)
    "orientation" (VList [VStr "horizontal"]) (World (VStr "diagonal") [] [])
  = (Raise (TypeError "unhashable type"), World (VStr "diagonal") [] [])
  /\ set_attribute value keeps_orientation 1 (resolution DeclaredSlider)
       "orientation" (VStr "diagonal") (World (VStr "horizontal") [] [])
     = (Raise (ValueError orientation_message), World (VStr "horizontal") [] [])
  /\ set_attribute value keeps_orientation 1 (resolution DeclaredSlider)
       "orientation" (VSet [VStr "horizontal"]) (World (VStr "horizontal") [] [])
     = (Raise (ValueError orientation_message), World (VStr "horizontal") [] [])
  /\ set_attribute value keeps_orientation 1 (resolution DeclaredSlider)
       "orientation" (VStr "vertical") (World (VStr "horizontal") [] [])
     = (Ret VNone,
        World (VStr "vertical") []
              [Call "_mgui_set_orientation" [VStr "vertical"] []]).
Proof.
  split; [|split; [|split]].
  - apply (proj1 (proj2 (orientation_assignment value keeps_orientation
                    (resolution DeclaredSlider) eq_refl 0
                    (VList [VStr "horizontal"]) (World (VStr "diagonal") [] []))));
      reflexivity.
  - apply (proj1 (orientation_assignment value keeps_orientation
                    (resolution DeclaredSlider) eq_refl 0
                    (VStr "diagonal") (World (VStr "horizontal") [] []))).
    + intros [H|H]; discriminate H.
    + left. reflexivity.
  - apply (proj1 (orientation_assignment value keeps_orientation
                    (resolution DeclaredSlider) eq_refl 0
                    (VSet [VStr "horizontal"]) (World (VStr "horizontal") [] []))).
    + intros [H|H]; discriminate H.
    + right. reflexivity.
  - apply (proj2 (proj2 (orientation_assignment value keeps_orientation
                    (resolution DeclaredSlider) eq_refl 0
                    (VStr "vertical") (World (VStr "horizontal") [] [])))
             (or_intror eq_refl) "_mgui_set_orientation" eq_refl).
Defined.

(** C2 fails as stated: assigning a list raises [TypeError], not
    [ValueError]. *)
Lemma unhashable_orientation_not_value_error :
  ~ permitted (VList [])
  /\ set_attribute value keeps_orientation 1 (resolution DeclaredSlider)
       "orientation" (VList []) (World (VStr "horizontal") [] [])
     = (Raise (TypeError "unhashable type"), World (VStr "horizontal") [] []).
Proof.
  split; [intros [H|H]; discriminate H|reflexivity].
Qed.

Lemma orientation_read_witness :
  get_attribute value keeps_orientation 1 (resolution DeclaredSlider)
    "orientation" (World (VStr "diagonal") [] [])
  = (Ret (VStr "diagonal"),
     World (VStr "diagonal") [] [Call "_mgui_get_orientation" [] []]).
Proof.
  rewrite (proj1 (orientation_read value keeps_orientation
                    (resolution DeclaredSlider) eq_refl 1
                    (World (VStr "diagonal") [] []))).
  reflexivity.
Defined.

(** ** Index policies of a container *)

(** C5.  Get-by-index never raises and returns [None] outside
    [0 .. count - 1]; remove-by-index outside that range fails with an
    [IndexError] and leaves the children as they were.  Inside the range
    both succeed. *)
Theorem container_index_policies (c : Container.children) (i : Z) :
  (exists r, Container._mgui_get_index c i = Ret r)
  /\ ((i < 0 \/ Container._mgui_count c <= i)%Z ->
      Container._mgui_get_index c i = Ret None
      /\ Container._mgui_remove_index c i
         = (Raise (IndexError "index out of range"), c))
  /\ ((0 <= i < Container._mgui_count c)%Z ->
      (exists child, Container._mgui_get_index c i = Ret (Some child))
      /\ fst (Container._mgui_remove_index c i) = Ret tt).
Proof.
  unfold Container._mgui_get_index, Container._mgui_remove_index, Container.in_range.
  split; [|split].
  - destruct ((0 <=? i)%Z && (i <? Container._mgui_count c)%Z); eauto.
  - intros H.
    assert (E : ((0 <=? i) && (i <? Container._mgui_count c))%Z = false).
    { apply andb_false_iff. destruct H; [left; lia|right; lia]. }
    rewrite E. auto.
  - intros H.
    assert (E : ((0 <=? i) && (i <? Container._mgui_count c))%Z = true).
    { apply andb_true_iff. split; lia. }
    rewrite E. split; [|reflexivity].
    destruct (nth_error c (Z.to_nat i)) as [child|] eqn:En; eauto.
    apply nth_error_None in En. unfold Container._mgui_count in H. lia.
Qed.

Lemma container_index_policies_witness :
  Container._mgui_get_index ["A"; "C"] 5 = Ret None
  /\ Container._mgui_remove_index ["A"; "C"] 5
     = (Raise (IndexError "index out of range"), ["A"; "C"]).
Proof.
  apply (proj1 (proj2 (container_index_policies ["A"; "C"] 5))).
  right. vm_compute. discriminate.
Defined.

(** The container scenario: from children A, B, C, removing index 1 leaves
    A, C; index 1 then holds C and index 5 holds nothing. *)
Example container_scenario :
  Container._mgui_remove_index ["A"; "B"; "C"] 1 = (Ret tt, ["A"; "C"])
  /\ Container._mgui_get_index ["A"; "C"] 1 = Ret (Some "C")
  /\ Container._mgui_get_index ["A"; "C"] 5 = Ret None.
Proof. repeat split. Qed.

(** * Further properties of the module *)

(** ** The runtime check across the decorated protocols *)

Lemma decorated_checkable (P : class) :
  In P decorated_protocols ->
  _is_protocol P = true /\ _is_runtime_protocol P = true.
Proof.
  intros HP.
  assert (H : forallb (fun P => _is_protocol P && _is_runtime_protocol P)
                decorated_protocols = true) by reflexivity.
  rewrite forallb_forall in H. specialize (H P HP).
  now apply andb_prop in H.
Qed.

(** X2.  Conformance follows the declared hierarchy: an instance of a
    decorated protocol class is an instance of every decorated protocol
    class in its resolution order. *)
Theorem conformance_follows_hierarchy (o : instance) (P Q : class) :
  In P decorated_protocols -> In Q decorated_protocols ->
  in_mro Q P = true ->
  isinstance o P = Ret true -> isinstance o Q = Ret true.
Proof.
  intros HP HQ Hin.
  destruct (decorated_checkable P HP) as [Hp1 Hp2].
  destruct (decorated_checkable Q HQ) as [Hq1 Hq2].
  apply conforms_weaken; try assumption.
  assert (H : forallb
                (fun P =>
                   forallb
                     (fun Q =>
                        negb (in_mro Q P)
                        || forallb (fun a => mem a (_get_protocol_attrs P))
                                   (_get_protocol_attrs Q))
                     decorated_protocols)
                decorated_protocols = true) by (vm_compute; reflexivity).
  rewrite forallb_forall in H. specialize (H P HP).
  rewrite forallb_forall in H. specialize (H Q HQ).
  rewrite Hin in H. exact H.
Qed.

Lemma conformance_follows_hierarchy_witness :
  isinstance (Instance DeclaredSlider []) WidgetProtocol = Ret true.
Proof.
  apply (conformance_follows_hierarchy (Instance DeclaredSlider [])
           SliderWidgetProtocol WidgetProtocol).
  - simpl. tauto.
  - simpl. tauto.
  - reflexivity.
  - reflexivity.
Defined.

(** X3.  What the runtime check looks for and what a subclass must
    override differ by one name: the members of a protocol class are its
    abstract methods, and [orientation] when [SupportsOrientation] is in
    its resolution order; [orientation] is not an abstract method of any
    protocol class. *)
Theorem members_are_abstract_or_orientation (P : class) (m : string) :
  In P protocol_classes ->
  (In m (_get_protocol_attrs P) <->
   In m (abstractmethods P)
   \/ (m = "orientation" /\ in_mro SupportsOrientation P = true))
  /\ ~ In "orientation" (abstractmethods P).
Proof.
  intros HP. split.
  2:{ assert (H : forallb (fun P => negb (mem "orientation" (abstractmethods P)))
                    protocol_classes = true) by (vm_compute; reflexivity).
      rewrite forallb_forall in H. specialize (H P HP).
      intros Hin. apply mem_In in Hin. rewrite Hin in H. discriminate H. }
  assert (H : forallb
                (fun P =>
                   forallb (fun m => mem m (abstractmethods P)
                                     || (String.eqb m "orientation"
                                         && in_mro SupportsOrientation P))
                           (_get_protocol_attrs P)
                   && forallb (fun m => mem m (_get_protocol_attrs P))
                              (abstractmethods P)
                   && (negb (in_mro SupportsOrientation P)
                       || mem "orientation" (_get_protocol_attrs P)))
                protocol_classes = true) by (vm_compute; reflexivity).
  rewrite forallb_forall in H. specialize (H P HP).
  apply andb_prop in H as [H H3]. apply andb_prop in H as [H1 H2].
  rewrite forallb_forall in H1, H2. split.
  - intros Hm. specialize (H1 m Hm). apply orb_true_iff in H1 as [H1|H1].
    + left. now apply mem_In.
    + right. apply andb_prop in H1 as [E Hso]. apply String.eqb_eq in E. auto.
  - intros [Hm|[-> Hso]].
    + apply mem_In. auto.
    + rewrite Hso in H3. now apply mem_In.
Qed.

Lemma members_are_abstract_or_orientation_witness :
  In "orientation" (_get_protocol_attrs ContainerProtocol)
  /\ ~ In "orientation" (abstractmethods ContainerProtocol).
Proof.
  split.
  - apply (proj2 (proj1 (members_are_abstract_or_orientation ContainerProtocol
                    "orientation"
                    (or_intror (or_intror (or_intror (or_intror (or_intror
                       (or_intror (or_intror (or_intror (or_intror
                          (or_introl eq_refl))))))))))))).
    right. split; reflexivity.
  - apply (proj2 (members_are_abstract_or_orientation ContainerProtocol
                    "orientation"
                    (or_intror (or_intror (or_intror (or_intror (or_intror
                       (or_intror (or_intror (or_intror (or_intror
                          (or_introl eq_refl)))))))))))).
Defined.

(** ** The tree in the docstring *)

(** X4.  The tree at the head of the module is sound: each class is a
    direct subclass of the class it is drawn under and of the capability
    named beside it, and every method listed for it is one of its
    abstract methods.  It is not complete: eight abstract methods are
    listed nowhere. *)
Theorem docstring_tree_sound (d : documented) :
  In d docstring_tree ->
  (forall parent, doc_parent d = Some parent -> In parent (cbases (doc_class d)))
  /\ incl (doc_mixins d) (cbases (doc_class d))
  /\ incl (doc_methods d) (abstractmethods (doc_class d))
  /\ undocumented_methods
     = [ "_mgui_get_enabled"; "_mgui_set_enabled"; "_mgui_get_parent";
         "_mgui_set_parent"; "_mgui_bind_parent_change_callback";
         "_mgui_render"; "_mgui_get_margins"; "_mgui_set_margins" ].
Proof.
  intros Hd. simpl in Hd.
  repeat (destruct Hd as [<-|Hd];
          [repeat split;
           [ intros parent [= <-]; simpl; tauto
           | intros x Hx; simpl in Hx; simpl; tauto
           | apply subset_incl; reflexivity ]|]).
  contradiction.
Qed.

Lemma docstring_tree_sound_witness :
  In SupportsOrientation (cbases ContainerProtocol)
  /\ In "_mgui_get_index" (abstractmethods ContainerProtocol).
Proof.
  destruct (docstring_tree_sound
              (Documented ContainerProtocol (Some WidgetProtocol) [SupportsOrientation]
                 [ "_mgui_add_widget"; "_mgui_insert_widget"; "_mgui_remove_widget";
                   "_mgui_remove_index"; "_mgui_count"; "_mgui_index";
                   "_mgui_get_index"; "_mgui_get_native_layout" ]))
    as (_ & Hmix & Hmeth & _).
  - simpl. tauto.
  - split.
    + apply Hmix. simpl. tauto.
    + apply Hmeth. simpl. tauto.
Defined.

(** ** Declared subclasses *)

Lemma own_abstract (D : class) (name q : string) :
  is_abc D = true -> In (name, Function true q) (cbody D) ->
  In name (abstractmethods D).
Proof.
  intros Habc Hin. rewrite abstractmethods_unfold, Habc.
  apply in_or_app. left.
  apply in_map_iff. exists (name, Function true q). split; [reflexivity|].
  apply filter_In. split; [exact Hin|reflexivity].
Qed.

(** An abstract method that no class between [K] and its declaring class
    [D] rebinds is abstract on [K]. *)
Lemma abstract_until_overridden (D : class) (name q : string) :
  is_abc D = true -> In name (abstractmethods D) ->
  assoc name (class_dict D) = Some (Function true q) ->
  forall K l,
    mro K = Some l -> In D l ->
    (forall C, In C l -> C = D \/ has_key name (class_dict C) = false) ->
    In name (abstractmethods K) /\ is_abc K = true.
Proof.
  intros HD Habs Hq K.
  induction K as [n bs r d IH] using class_bases_ind.
  intros l Hl Hin Hom.
  destruct (mro_inv _ _ Hl _ Hin) as [E|(B & lb & HB & HlB & HinB & Hincl)].
  - rewrite <- E. auto.
  - rewrite Forall_forall in IH.
    destruct (IH B HB lb HlB HinB) as [HabsB HabcB].
    { intros C HC. apply Hom. apply Hincl, HC. }
    assert (Hme : is_abc (Class n bs r d) = true) by (eapply is_abc_base; eauto).
    split; [|exact Hme].
    rewrite abstractmethods_unfold, Hme. apply in_or_app. right.
    apply in_flat_map. exists B. split; [exact HB|].
    apply filter_In. split; [exact HabsB|].
    unfold class_getattr. rewrite Hl.
    now rewrite (lookup_mro_only l D name _ Hom Hin Hq).
Qed.

Lemma protocol_binding (D : class) (name q : string) :
  In D protocol_classes -> In (name, Function true q) (cbody D) ->
  is_abc D = true /\ assoc name (class_dict D) = Some (Function true q).
Proof.
  intros HD H. simpl in HD.
  repeat (destruct HD as [<-|HD];
          [simpl in H;
           repeat (destruct H as [E|H];
                   [inversion E; subst; split; reflexivity|]);
           contradiction|]).
  contradiction.
Qed.

(** X5.  No protocol class can be instantiated, nor can a class below one
    as long as an abstract method declared by a protocol class [D] is
    bound by no other class of its resolution order. *)
Theorem unimplemented_protocol_abstract (D K : class) (name q : string) :
  In D protocol_classes -> In (name, Function true q) (cbody D) ->
  in_mro D K = true -> only_from D K name = true ->
  instantiate K = Raise (TypeError "Can't instantiate abstract class").
Proof.
  intros HD Hin Hsub Hom.
  destruct (protocol_binding D name q HD Hin) as [Habc Hq].
  unfold in_mro in Hsub. unfold only_from in Hom. unfold instantiate.
  destruct (mro K) as [l|] eqn:Hl; try discriminate.
  apply existsb_exists in Hsub as (C & HC & E).
  apply class_eqb_eq in E. subst C.
  rewrite forallb_forall in Hom.
  destruct (abstract_until_overridden D name q Habc
              (own_abstract D name q Habc Hin) Hq K l Hl HC) as [Habs _].
  { intros C HC'. specialize (Hom C HC').
    apply orb_true_iff in Hom as [E|E].
    - left. now apply class_eqb_eq.
    - right. now destruct (has_key name (class_dict C)). }
  destruct (abstractmethods K); [contradiction|reflexivity].
Qed.

Lemma unimplemented_protocol_abstract_witness :
  instantiate PartialSlider = Raise (TypeError "Can't instantiate abstract class")
  /\ instantiate CategoricalWidgetProtocol
     = Raise (TypeError "Can't instantiate abstract class").
Proof.
  split.
  - apply (unimplemented_protocol_abstract RangedWidgetProtocol PartialSlider
             "_mgui_get_step" "RangedWidgetProtocol._mgui_get_step").
    + simpl. tauto.
    + simpl. tauto.
    + reflexivity.
    + reflexivity.
  - apply (unimplemented_protocol_abstract SupportsChoices CategoricalWidgetProtocol
             "_mgui_set_choices" "SupportsChoices._mgui_set_choices").
    + simpl. tauto.
    + simpl. tauto.
    + reflexivity.
    + reflexivity.
Defined.





(** ** Where the validation of the orientation applies *)

(** A class below [SupportsOrientation] that does not rebind
    [orientation] gets the property. *)
Lemma declared_orientation_property (K : class) :
  in_mro SupportsOrientation K = true ->
  only_from SupportsOrientation K "orientation" = true ->
  lookup_mro (resolution K) "orientation" = Some orientation_property.
Proof.
  unfold in_mro, only_from, resolution.
  destruct (mro K) as [l|]; try discriminate.
  intros Hin Hom. apply existsb_exists in Hin as (C & HC & E).
  apply class_eqb_eq in E. subst C. rewrite forallb_forall in Hom.
  apply (lookup_mro_only l SupportsOrientation); auto.
  intros C HC'. specialize (Hom C HC'). apply orb_true_iff in Hom as [E|E].
  - left. now apply class_eqb_eq.
  - right. now destruct (has_key "orientation" (class_dict C)).
Qed.

Section Validation.
Variable St : Type.
Variable native : string -> list value -> St -> result value * St.

(** The setter of the property, once reached, rejects what is not one of
    the two strings before anything else happens. *)
Lemma setter_rejects (depth : nat) (l : list class) (v : value) (w : world St) :
  lookup_mro l "orientation" = Some orientation_property ->
  ~ permitted v ->
  set_attribute St native depth l "orientation" v w
  = (Raise (if hashable v || is_set v then ValueError orientation_message
            else TypeError "unhashable type"), w).
Proof.
  intros Hl Hnot. unfold set_attribute. rewrite Hl. unfold orientation_property.
  change (invoke St (fun m a => call_method St native depth l m a [])
                 "SupportsOrientation.orientation.fset" [v] [])
    with (orientation_fset St
            (fun m a => call_method St native depth l m a [])
            [("value", v)]).
  unfold orientation_fset, argument. simpl assoc. unfold bind, try.
  destruct (hashable v || is_set v) eqn:Hk.
  - apply orb_true_iff in Hk.
    rewrite (set_contains_rejects v Hk Hnot). reflexivity.
  - apply orb_false_iff in Hk as [Hh Hs].
    unfold set_contains. rewrite Hh, Hs. reflexivity.
Qed.

(** X7.  The validation is inherited: on an instance of any class below
    [SupportsOrientation] that does not rebind [orientation], assigning a
    value other than the two strings raises and changes nothing,
    whatever the class does in [_mgui_set_orientation]: [ValueError] for
    a value that is hashable or a set, [TypeError] for any other. *)
Theorem validation_inherited (K : class) (depth : nat) (v : value) (w : world St) :
  in_mro SupportsOrientation K = true ->
  only_from SupportsOrientation K "orientation" = true ->
  ~ permitted v ->
  set_attribute St native depth (resolution K) "orientation" v w
  = (Raise (if hashable v || is_set v then ValueError orientation_message
            else TypeError "unhashable type"), w).
Proof.
  intros Hin Hom Hnot. apply setter_rejects; [|exact Hnot].
  now apply declared_orientation_property.
Qed.
End Validation.

Lemma validation_inherited_witness :
  set_attribute value keeps_orientation 1 (resolution DeclaredContainer)
    "orientation" (VStr "diagonal") (World (VStr "vertical") [] [])
  = (Raise (ValueError orientation_message), World (VStr "vertical") [] [])
  /\ set_attribute value keeps_orientation 1 (resolution DeclaredContainer)
       "orientation" (VSet []) (World (VStr "vertical") [] [])
     = (Raise (ValueError orientation_message), World (VStr "vertical") [] [])
  /\ set_attribute value keeps_orientation 1 (resolution DeclaredContainer)
       "orientation" (VTuple [VSet []]) (World (VStr "vertical") [] [])
     = (Raise (TypeError "unhashable type"), World (VStr "vertical") [] []).
Proof.
  split; [|split].
  - apply (validation_inherited value keeps_orientation DeclaredContainer 1
             (VStr "diagonal") (World (VStr "vertical") [] []) eq_refl eq_refl).
    intros [H|H]; discriminate H.
  - apply (validation_inherited value keeps_orientation DeclaredContainer 1
             (VSet []) (World (VStr "vertical") [] []) eq_refl eq_refl).
    intros [H|H]; discriminate H.
  - apply (validation_inherited value keeps_orientation DeclaredContainer 1
             (VTuple [VSet []]) (World (VStr "vertical") [] []) eq_refl eq_refl).
    intros [H|H]; discriminate H.
Defined.


(** ** The application backend is a nominal contract *)

(** X9.  [BaseApplicationBackend] is an abstract base class, not a
    protocol: the check against it never raises and holds exactly for the
    instances of the classes that have it in their resolution order.  An
    object of a class with no base but [object] is not an instance,
    whatever it implements. *)
Theorem application_backend_nominal (o : instance) :
  isinstance o BaseApplicationBackend
  = Ret (in_mro BaseApplicationBackend (ob_type o))
  /\ (cbases (ob_type o) = [object] ->
      isinstance o BaseApplicationBackend = Ret false).
Proof.
  assert (E : isinstance o BaseApplicationBackend
              = Ret (in_mro BaseApplicationBackend (ob_type o))).
  { unfold isinstance, issubclass.
    change (_is_protocol BaseApplicationBackend) with false. simpl.
    now destruct (in_mro BaseApplicationBackend (ob_type o)). }
  split; [exact E|].
  intros Hbases. rewrite E. f_equal.
  destruct (in_mro BaseApplicationBackend (ob_type o)) eqn:Hin; auto.
  unfold in_mro in Hin.
  destruct (mro (ob_type o)) as [l|] eqn:Hl; try discriminate.
  apply existsb_exists in Hin as (C & HC & Heq).
  apply class_eqb_eq in Heq. subst C.
  destruct (mro_inv _ _ Hl _ HC) as [Hme|(B & lb & HB & HlB & HinB & _)].
  - rewrite <- Hme in Hbases. discriminate Hbases.
  - rewrite Hbases in HB. destruct HB as [<-|[]].
    injection HlB as <-. simpl in HinB.
    destruct HinB as [HinB|[]]. discriminate HinB.
Qed.

(** A class with the seven methods and no declared base. *)
Lemma application_backend_nominal_witness :
  forallb (hasattr (Instance (Class "DuckBackend" [object] false
                                (map native_method application_operations)) []))
          application_operations = true
  /\ isinstance
    (Instance (Class "DuckBackend" [object] false
                 (map native_method application_operations)) [])
    BaseApplicationBackend = Ret false
  /\ isinstance (Instance FullBackend []) BaseApplicationBackend = Ret true.
Proof.
  split; [reflexivity|]. split.
  - apply (proj2 (application_backend_nominal
                    (Instance (Class "DuckBackend" [object] false
                                 (map native_method application_operations)) []))).
    reflexivity.
  - rewrite (proj1 (application_backend_nominal (Instance FullBackend []))).
    reflexivity.
Defined.

(** * The runtime check as it runs *)



Lemma class_getattr_resolution (K : class) (name : string) :
  class_getattr K name = lookup_mro (resolution K) name.
Proof.
  unfold class_getattr, resolution. now destruct (mro K).
Qed.

Section RuntimeCheck.
Variable St : Type.
Variable native : string -> list value -> St -> result value * St.


(** *** Reading an attribute leaves the instance's own attributes alone *)





(** *** Ordinary and missing attributes *)



Lemma get_attribute_ordinary (depth : nat) (l : list class) (name : string)
    (w : world St) :
  implements_in St l w name = true ->
  exists v, get_attribute St native depth l name w = (Ret v, w)
            /\ is_none v = false.
Proof.
  unfold implements_in, get_attribute.
  destruct (lookup_mro l name) as [[b q|n|fget fset|fget fset|]|];
    try discriminate;
    destruct (assoc name (attrs w)) as [v|]; try discriminate;
    intros H; eexists; split; try reflexivity;
    try (now destruct (is_none v)).
Qed.

Lemma member_present_ordinary (depth : nat) (l : list class) (cls : class)
    (name : string) (w : world St) :
  implements_in St l w name = true ->
  member_present St native depth l cls name w = (Ret true, w).
Proof.
  intros H. destruct (get_attribute_ordinary depth l name w H) as (v & Hv & Hn).
  unfold member_present, bind, hasattr_run. rewrite Hv. simpl.
  destruct (callable (class_getattr cls name)); simpl; [|reflexivity].
  rewrite Hv. unfold ret. now rewrite Hn.
Qed.

Lemma member_present_lacking (depth : nat) (l : list class) (cls : class)
    (name : string) (w : world St) :
  lacks St l w name = true ->
  member_present St native depth l cls name w = (Ret false, w).
Proof.
  unfold lacks, member_present, bind, hasattr_run, get_attribute.
  destruct (lookup_mro l name); [discriminate|].
  destruct (assoc name (attrs w)); [discriminate|]. reflexivity.
Qed.

(** *** All members *)



(** When every member is an ordinary attribute or missing, nothing runs:
    the answer is whether all are there, and nothing changes. *)
Lemma all_members_ordinary (depth : nat) (l : list class) (cls : class)
    (names : list string) (w : world St) :
  (forall a, In a names ->
             implements_in St l w a = true \/ lacks St l w a = true) ->
  all_members St native depth l cls names w
  = (Ret (forallb (implements_in St l w) names), w).
Proof.
  induction names as [|a t IH]; intros H; [reflexivity|].
  simpl. unfold bind.
  destruct (H a (or_introl eq_refl)) as [Ha|Ha].
  - rewrite (member_present_ordinary depth l cls a w Ha), Ha. simpl.
    apply IH. intros b Hb. apply H. now right.
  - rewrite (member_present_lacking depth l cls a w Ha).
    assert (E : implements_in St l w a = false).
    { unfold lacks in Ha. unfold implements_in.
      destruct (lookup_mro l a); [discriminate|].
      destruct (assoc a (attrs w)); [discriminate|reflexivity]. }
    rewrite E. reflexivity.
Qed.



(** What the check comes to for a protocol that is runtime-checkable. *)
Lemma isinstance_run_unfold (depth : nat) (K P : class) (w : world St) :
  _is_protocol P = true -> _is_runtime_protocol P = true ->
  isinstance_run St native depth K P w
  = if _is_callable_members_only P && (structural P K || in_mro P K)
    then (Ret true, w)
    else match all_members St native depth (resolution K) P
                 (_get_protocol_attrs P) w with
         | (Ret true, w') => (Ret true, w')
         | (Ret false, w') =>
             (Ret (in_mro P K
                   || (_is_callable_members_only P && structural P K)), w')
         | (Raise e, w') => (Raise e, w')
         end.
Proof.
  intros Hp Hr. unfold isinstance_run, issubclass. rewrite Hp, Hr.
  cbn [negb andb orb]. unfold bind, ret, try.
  destruct (_is_callable_members_only P); cbn [negb andb orb].
  - destruct (structural P K || in_mro P K) eqn:E; [reflexivity|].
    apply orb_false_iff in E as [E1 E2]. rewrite E1, E2.
    destruct (all_members St native depth (resolution K) P
                (_get_protocol_attrs P) w) as [[[|]|e] w']; reflexivity.
  - destruct (all_members St native depth (resolution K) P
                (_get_protocol_attrs P) w) as [[[|]|e] w'];
      try reflexivity. now rewrite orb_false_r.
Qed.



(** *** The class-level check and the running check *)

Lemma existsb_keys {A} (a : string) (l : list (string * A)) :
  existsb (String.eqb a) (map fst l) = has_key a l.
Proof.
  unfold has_key. induction l as [|[k x] t IH]; simpl; auto.
  destruct (String.eqb a k); auto.
Qed.

Lemma ordinary_hasattr (K : class) (w : world St) (a : string) :
  implements_in St (resolution K) w a = true \/ lacks St (resolution K) w a = true ->
  implements_in St (resolution K) w a
  = hasattr (Instance K (map fst (attrs w))) a.
Proof.
  unfold hasattr, implements_in, lacks, has_key. simpl.
  rewrite existsb_keys, class_getattr_resolution. unfold has_key.
  destruct (lookup_mro (resolution K) a) as [[b q|n|fget fset|fget fset|]|];
    destruct (assoc a (attrs w)) as [v|]; simpl;
    intros [H|H]; try discriminate; auto; now rewrite orb_true_r.
Qed.

(** For an object whose members are ordinary attributes or missing, the
    running check is the class-level check [isinstance]: same answer,
    nothing raised, nothing changed. *)
Lemma isinstance_run_ordinary (depth : nat) (K P : class) (w : world St) :
  _is_protocol P = true -> _is_runtime_protocol P = true ->
  (forall a, In a (_get_protocol_attrs P) ->
             implements_in St (resolution K) w a = true
             \/ lacks St (resolution K) w a = true) ->
  isinstance_run St native depth K P w
  = (isinstance (Instance K (map fst (attrs w))) P, w).
Proof.
  intros Hp Hr Hall.
  rewrite (isinstance_run_unfold depth K P w Hp Hr).
  rewrite (isinstance_runtime_protocol _ P Hp Hr).
  rewrite (all_members_ordinary depth (resolution K) P _ w Hall).
  assert (E : forallb (implements_in St (resolution K) w) (_get_protocol_attrs P)
              = forallb (hasattr (Instance K (map fst (attrs w))))
                        (_get_protocol_attrs P)).
  { revert Hall. induction (_get_protocol_attrs P) as [|a t IH]; intros Hall;
      [reflexivity|].
    simpl. rewrite (ordinary_hasattr K w a (Hall a (or_introl eq_refl))).
    f_equal. apply IH. intros b Hb. apply Hall. now right. }
  rewrite E.
  pose proof (structural_hasattr (Instance K (map fst (attrs w))) P) as Hs.
  pose proof (in_mro_hasattr (Instance K (map fst (attrs w))) P) as Hn.
  simpl in Hs, Hn.
  destruct (forallb (hasattr (Instance K (map fst (attrs w))))
                    (_get_protocol_attrs P)).
  - now destruct (_is_callable_members_only P && (structural P K || in_mro P K)).
  - destruct (in_mro P K); [now discriminate Hn|].
    destruct (structural P K); [now discriminate Hs|].
    now rewrite !andb_false_r.
Qed.
End RuntimeCheck.




